(** * multivectors.py: the geometric algebra Cl(3,0) on 8-component multivectors

    A shallow embedding of [src/multivectors.py].  A [MultiVector] holds an
    [array.array('d', ...)] of exactly eight IEEE-754 binary64 numbers; they
    are modelled by Rocq's primitive floats, so every definition below runs
    (by [vm_compute]) on the same doubles as the Python code.  Rocq's doubles
    have a single NaN: an equation between two doubles says nothing about the
    sign or the payload of a NaN, which Python's operations can set
    differently; where NaNs can arise, statements say "both are NaN, or the
    same double" ([same_double]).

    Python pieces the module relies on are modelled in [Module Py]:
    exceptions as an error monad, [array] subscripting with negative indices,
    the builtin [sum], the conversion of an [int] operand to a double, and
    the domain error of [math.cos] and [math.sin]. *)

From Stdlib Require Import String ZArith List Bool Lia Floats.
Import ListNotations.

Local Open Scope float_scope.

(** ** The Python runtime, as far as the module uses it *)

Module Py.

(** The exceptions that the modelled operations can raise. *)
Inductive exn : Set := IndexError | TypeError | OverflowError | ValueError.

(** A computation either returns a value or raises. *)
Inductive res (A : Type) : Type :=
| Ret (a : A)
| Raise (e : exn).
Arguments Ret {A} a.
Arguments Raise {A} e.

Definition bind {A B : Type} (r : res A) (k : A -> res B) : res B :=
  match r with
  | Ret a => k a
  | Raise e => Raise e
  end.

Notation "x <- r ;; k" := (bind r (fun x => k))
  (at level 61, r at next level, right associativity).

(** [range(n)]. *)
Definition range (n : nat) : list nat := seq 0 n.

(** Subscripting a sequence of length [len] with the integer [i]: a negative
    index counts from the end, and an index outside [-len, len-1] raises
    [IndexError]. *)
Definition seq_index (len : nat) (i : Z) : res nat :=
  let n := Z.of_nat len in
  let k := if (i <? 0)%Z then (i + n)%Z else i in
  if ((0 <=? k)%Z && (k <? n)%Z)%bool then Ret (Z.to_nat k) else Raise IndexError.

(** [a[k] = x] on a list, for an index already in range. *)
Fixpoint update (a : list float) (k : nat) (x : float) : list float :=
  match a, k with
  | [], _ => []
  | _ :: t, O => x :: t
  | h :: t, S k' => h :: update t k' x
  end.

(** [a[i]] for an [array.array('d')] [a]. *)
Definition array_getitem (a : list float) (i : Z) : res float :=
  bind (seq_index (length a) i) (fun k => Ret (nth k a 0)).

(** [a[i] = x] for an [array.array('d')] [a]: the array after the store. *)
Definition array_setitem (a : list float) (i : Z) (x : float) : res (list float) :=
  bind (seq_index (length a) i) (fun k => Ret (update a k x)).

(** The builtin [sum(xs)] on floats: the start value is the int [0], which
    the first addition converts to [0.0]; the items are then added from
    left to right (CPython up to 3.11; later versions carry a compensation
    term besides, which vanishes when every addition is exact). *)
Definition sum (xs : list float) : float := fold_left PrimFloat.add xs 0.

(** The double an [int] operand is converted to in [float * int]: the
    nearest double, ties to even; [OverflowError] when that is out of
    range. *)
Definition float_of_int (z : Z) : res float :=
  let f := SF2Prim (binary_normalize prec emax z 0 false) in
  if PrimFloat.is_infinity f then Raise OverflowError else Ret f.

(** [math.cos(x)] and [math.sin(x)] for a double [x]: the C library's
    function [f], except that at an infinite argument, where the library's
    result is a NaN, Python raises [ValueError] (math domain error).  A NaN
    argument is passed through. *)
Definition math_fn (f : float -> float) (x : float) : res float :=
  if PrimFloat.is_infinity x then Raise ValueError else Ret (f x).

End Py.
Import Py.

(** The values a right operand or a subscript can be.  [bool] is a subclass
    of [int] and is covered by [PyInt] (0 and 1); [PyNone], [PyStr] and
    [PyComplex] stand for the types that are neither [MultiVector], [int] nor
    [float]. *)
Inductive pyobj (MV : Type) : Type :=
| PyMV (m : MV)
| PyInt (z : Z)
| PyFloat (f : float)
| PyNone
| PyStr (s : string)
| PyComplex (re im : float).
Arguments PyMV {MV} m.
Arguments PyInt {MV} z.
Arguments PyFloat {MV} f.
Arguments PyNone {MV}.
Arguments PyStr {MV} s.
Arguments PyComplex {MV} re im.

(** ** The class [MultiVector] *)

(** [__init__]: the eight components, in the order of the constructor's
    parameters.  The array [comp] is created with eight items and is never
    resized, so the record fixes its length. *)
Record MultiVector : Set := mkMV {
  real : float;
  vecx : float;
  vecy : float;
  vecz : float;
  axix : float;
  axiy : float;
  axiz : float;
  imag : float
}.

(** [self.comp], the array of the eight components. *)
Definition comp (m : MultiVector) : list float :=
  [real m; vecx m; vecy m; vecz m; axix m; axiy m; axiz m; imag m].

(** The starred call of the constructor on a list [xs]: the items of [xs]
    bound to the parameters in order, a missing one taking its default [0.0].
    Every such call in the module passes eight items. *)
Definition MultiVector_star (xs : list float) : MultiVector :=
  mkMV (nth 0 xs 0) (nth 1 xs 0) (nth 2 xs 0) (nth 3 xs 0)
       (nth 4 xs 0) (nth 5 xs 0) (nth 6 xs 0) (nth 7 xs 0).

(** [__getitem__]: [self.comp[item]] for an integer [item]. *)
Definition __getitem__ (self : MultiVector) (item : Z) : res float :=
  array_getitem (comp self) item.

(** [self[j]] for [j] drawn from [range(8)] or written as a literal in
    [0..7], where the subscript cannot raise (see [getitem_range]). *)
Definition component (self : MultiVector) (j : nat) : float := nth j (comp self) 0.

(** [__setitem__]: the object after [self[key] = value].  Only an [int] key
    stores; any other key is ignored. *)
Definition __setitem__ (self : MultiVector) (key : pyobj MultiVector) (value : float)
  : res MultiVector :=
  match key with
  | PyInt k => bind (array_setitem (comp self) k value)
                    (fun a => Ret (MultiVector_star a))
  | _ => Ret self
  end.

(** Iterating over a multivector ([for c in self], [zip(self, other)]): the
    class defines no [__iter__], so Python subscripts it with
    0, 1, 2, ... until [IndexError]. *)
Fixpoint iter_from (get : Z -> res float) (fuel : nat) (i : Z) : list float :=
  match fuel with
  | O => []
  | S fuel' =>
      match get i with
      | Ret x => x :: iter_from get fuel' (i + 1)%Z
      | Raise _ => []
      end
  end.

Definition py_iter (self : MultiVector) : list float :=
  iter_from (__getitem__ self) 9 0%Z.

(** [__neg__]. *)
Definition __neg__ (self : MultiVector) : MultiVector :=
  MultiVector_star (map PrimFloat.opp (py_iter self)).

(** [__add__] and [__sub__]. *)
Definition __add__ (self other : MultiVector) : MultiVector :=
  MultiVector_star
    (map (fun '(c1, c2) => c1 + c2) (combine (py_iter self) (py_iter other))).

Definition __sub__ (self other : MultiVector) : MultiVector :=
  MultiVector_star
    (map (fun '(c1, c2) => c1 - c2) (combine (py_iter self) (py_iter other))).

(** ** The named basis and the metric table *)

Definition ZERO : MultiVector := mkMV 0 0 0 0 0 0 0 0.
Definition ONE : MultiVector := mkMV 1 0 0 0 0 0 0 0.
Definition VECX : MultiVector := mkMV 0 1 0 0 0 0 0 0.
Definition VECY : MultiVector := mkMV 0 0 1 0 0 0 0 0.
Definition VECZ : MultiVector := mkMV 0 0 0 1 0 0 0 0.
Definition AXIX : MultiVector := mkMV 0 0 0 0 1 0 0 0.
Definition AXIY : MultiVector := mkMV 0 0 0 0 0 1 0 0.
Definition AXIZ : MultiVector := mkMV 0 0 0 0 0 0 1 0.
Definition IMAG : MultiVector := mkMV 0 0 0 0 0 0 0 1.

Declare Scope mv_scope.
Delimit Scope mv_scope with mv.
Notation "- m" := (__neg__ m) (only parsing) : mv_scope.

(** The module-level list [METRIC], of multivectors. *)
Definition METRIC_rows : list (list MultiVector) :=
  [ [ONE;  VECX; VECY; VECZ; AXIX; AXIY; AXIZ; IMAG];
    [VECX; ONE; AXIX; - AXIZ; VECY; IMAG; - VECZ; AXIY];
    [VECY; - AXIX; ONE; AXIY; - VECX; VECZ; IMAG; AXIZ];
    [VECZ; AXIZ; - AXIY; ONE; IMAG; - VECY; VECX; AXIX];
    [AXIX; - VECY; VECX; IMAG; - ONE; - AXIZ; AXIY; - VECZ];
    [AXIY; IMAG; - VECZ; VECY; AXIZ; - ONE; - AXIX; - VECX];
    [AXIZ; VECZ; IMAG; - VECX; - AXIY; AXIX; - ONE; - VECY];
    [IMAG; AXIY; AXIZ; AXIX; - VECZ; - VECX; - VECY; - ONE] ]%mv.

(** [MultiVector.METRIC]: the component arrays of the entries, as they are
    when the module has been imported.  (The table shares the arrays of the
    named basis objects; a later store into one of those objects is outside
    what is stated here.) *)
Definition METRIC : list (list (list float)) :=
  map (fun row => map (fun res => comp res) row) METRIC_rows.

Definition VECTOR_BASIS : list MultiVector := [VECX; VECY; VECZ].
Definition AXIS_BASIS : list MultiVector := [AXIX; AXIY; AXIZ].

(** [MultiVector.METRIC[j][k][i]] for [j], [k], [i] drawn from [range(8)]. *)
Definition metric (j k i : nat) : float := nth i (nth k (nth j METRIC []) []) 0.

(** ** Multiplication *)

Definition value : Type := pyobj MultiVector.

(** The first branch of [__mul__]: the geometric product, a contraction of
    the two operands against the metric table. *)
Definition geometric_product (self other : MultiVector) : MultiVector :=
  MultiVector_star
    (map (fun i =>
            sum (map (fun j =>
                        sum (map (fun k => component self j * component other k * metric j k i)
                                 (range 8)))
                     (range 8)))
         (range 8)).

(** The second branch of [__mul__]: every component times the scalar. *)
Definition scale (self : MultiVector) (other : float) : MultiVector :=
  MultiVector_star (map (fun c => c * other) (py_iter self)).

(** [__mul__]: dispatch on the type of the right operand.  An [int] operand
    is converted to a double by [float * int]; any other operand yields
    [None]. *)
Definition __mul__ (self : MultiVector) (other : value) : res value :=
  match other with
  | PyMV o => Ret (PyMV (geometric_product self o))
  | PyInt z => bind (float_of_int z) (fun f => Ret (PyMV (scale self f)))
  | PyFloat f => Ret (PyMV (scale self f))
  | _ => Ret PyNone
  end.

(** [__rmul__]: the reflected product; the method falls off its end (and so
    returns [None]) for any other left operand. *)
Definition __rmul__ (self : MultiVector) (other : value) : res value :=
  match other with
  | PyMV o => __mul__ o (PyMV self)
  | PyInt _ | PyFloat _ => __mul__ self other
  | _ => Ret PyNone
  end.

Notation "a * b" := (geometric_product a b) (only parsing) : mv_scope.

(** ** Class methods *)

(** [linear_combination], for a list of multivectors and a list of doubles.
    A product [c * v] of a double and a multivector is [v.__rmul__(c)], that
    is [scale v c] (see [rmul_float]); [sum(..., MultiVector.ZERO)] adds the
    items to [ZERO] from left to right with [__add__]. *)
Definition linear_combination (system : list MultiVector) (comps : list float) : value :=
  if Nat.eqb (List.length system) (List.length comps)
  then PyMV (fold_left __add__
                       (map (fun '(c, v) => scale v c) (combine comps system))
                       ZERO)
  else PyNone.

Definition get_vector (x y z : float) : MultiVector := mkMV 0 x y z 0 0 0 0.

Definition get_axis (x y z : float) : MultiVector := mkMV 0 0 0 0 x y z 0.

Definition rotor2 (axis : MultiVector) (theta_cos theta_sin : float) : MultiVector :=
  mkMV theta_cos 0 0 0
       (component axis 4 * theta_sin) (component axis 5 * theta_sin)
       (component axis 6 * theta_sin)
       0.

(** [rotate3]: both products have a multivector on the right, so both are
    geometric products. *)
Definition rotate3 (self l_rot r_rot : MultiVector) : MultiVector :=
  ((l_rot * self) * r_rot)%mv.

Definition rotate2 (self axis : MultiVector) (cos2 sin2 : float) : MultiVector :=
  rotate3 self (rotor2 axis cos2 sin2) (rotor2 axis cos2 (- sin2)).

Definition scal_part (self : MultiVector) : float := component self 0.
Definition vec_part (self : MultiVector) : float * float * float :=
  (component self 1, component self 2, component self 3).
Definition axi_part (self : MultiVector) : float * float * float :=
  (component self 4, component self 5, component self 6).
Definition imag_part (self : MultiVector) : float := component self 7.

(** [math.cos] and [math.sin] wrap the C library's functions; the methods
    that call them are stated over any pair [cos], [sin] of functions on
    doubles for the library's, and raise where the calls raise. *)
Section Trig.

Variables cos sin : float -> float.

Definition math_cos : float -> res float := math_fn cos.
Definition math_sin : float -> res float := math_fn sin.

Definition rotor (axis : MultiVector) (theta : float) : res MultiVector :=
  c <- math_cos theta ;; s <- math_sin theta ;; Ret (rotor2 axis c s).

Definition rotate (self axis : MultiVector) (theta : float) : res MultiVector :=
  c <- math_cos (theta / 2) ;; s <- math_sin (theta / 2) ;;
  Ret (rotate2 self axis c s).

End Trig.

(** ** Comparing multivectors

    The class defines no [__eq__]; two multivectors are compared component by
    component with the doubles' [==] (under which [-0.0 == 0.0], and a NaN
    equals nothing). *)
Definition mv_eqb (a b : MultiVector) : bool :=
  forallb (fun '(x, y) => x =? y) (combine (comp a) (comp b)).

(** Two multivectors agree within [tol] on every component. *)
Definition mv_close (tol : float) (a b : MultiVector) : bool :=
  forallb (fun '(x, y) => abs (x - y) <=? tol) (combine (comp a) (comp b)).

(** ** Notions the statements use *)

(** *** The table as a Cayley table *)







(** *** Sums written by index *)

(** The sum of [f j] for [j] from 0 up to [n - 1], added in that order. *)
Fixpoint sum_below (n : nat) (f : nat -> float) : float :=
  match n with
  | O => 0
  | S n' => sum_below n' f + f n'
  end.

(** The double sum of the specification for component [i] of a product. *)
Definition double_sum (a b : MultiVector) (i : nat) : float :=
  sum_below 8 (fun j =>
    sum_below 8 (fun k => component a j * component b k * metric j k i)).

(** The sum of [coeffs[i] * system[i]] for [i] below [n], added to [ZERO] in
    the order of the index. *)
Fixpoint weighted_sum (n : nat) (system : list MultiVector) (coeffs : list float)
  : MultiVector :=
  match n with
  | O => ZERO
  | S k => __add__ (weighted_sum k system coeffs)
                   (scale (nth k system ZERO) (nth k coeffs 0))
  end.

(** *** Types of operands *)



(** *** Readings of the statements that the code refutes *)

(** Subscripts: outside [0,7] the read raises, inside it returns the
    component. *)
Definition getitem_claim (m : MultiVector) (i : Z) : Prop :=
  ((i < 0 \/ 7 < i)%Z -> __getitem__ m i = Raise IndexError) /\
  ((0 <= i <= 7)%Z -> __getitem__ m i = Ret (component m (Z.to_nat i))).

(** The round trip: the combination of the vector basis with [(x, y, z)] is
    a multivector equal, component by component, to [get_vector(x, y, z)]. *)
Definition round_trip_claim (x y z : float) : Prop :=
  exists m : MultiVector,
    linear_combination VECTOR_BASIS [x; y; z] = PyMV m /\
    mv_eqb m (get_vector x y z) = true.

(** Rotors: for every axis and angle, [rotor] returns a multivector with the
    components that C5 lists. *)
Definition rotor_claim (cos sin : float -> float) (axis : MultiVector) (theta : float)
  : Prop :=
  exists (a4 a5 a6 : float) (m : MultiVector),
    __getitem__ axis 4 = Ret a4 /\ __getitem__ axis 5 = Ret a5 /\
    __getitem__ axis 6 = Ret a6 /\
    rotor cos sin axis theta = Ret m /\
    comp m = [cos theta; 0; 0; 0; a4 * sin theta; a5 * sin theta; a6 * sin theta; 0].


(** *** The quarter turn *)

(** [math.pi]; [rotate] passes the half angle [math.pi / 2 / 2] of a quarter
    turn to the cosine and the sine. *)
Definition pi : float := 0x1.921fb54442d18p+1.

(** The doubles nearest to the cosine and to the sine of that half angle
    (both are near the square root of a half). *)
Definition cos_quarter_pi : float := 0x1.6a09e667f3bcdp-1.
Definition sin_quarter_pi : float := 0x1.6a09e667f3bccp-1.

(** What is assumed of the library's [cos] and [sin]: at the half angle of
    the quarter turn they return the nearest double or one of its two
    neighbours. *)
Definition quarter_turn_trig (cos sin : float -> float) : Prop :=
  In (cos (pi / 2 / 2))
     [next_down cos_quarter_pi; cos_quarter_pi; next_up cos_quarter_pi] /\
  In (sin (pi / 2 / 2))
     [next_down sin_quarter_pi; sin_quarter_pi; next_up sin_quarter_pi].

(** With such a library, the quarter turn of [get_vector(1,0,0)] about
    [get_axis(0,0,1)] is within [tol] of [expected]. *)
Definition quarter_turn_claim (tol : float) (expected : MultiVector) : Prop :=
  forall cos sin : float -> float,
    quarter_turn_trig cos sin ->
    exists m : MultiVector,
      rotate cos sin (get_vector 1 0 0) (get_axis 0 0 1) (pi / 2) = Ret m /\
      mv_close tol m expected = true.

(** Truncated Taylor series of the cosine and the sine, evaluated in doubles:
    concrete functions on which the trigonometric methods run in the
    examples. *)
Fixpoint series (n : nat) (k x2 : float) : float :=
  match n with
  | O => 1
  | S n' => 1 - x2 / (k * (k + 1)) * series n' (k + 2) x2
  end.

Definition cos_series (x : float) : float := series 12 1 (x * x).
Definition sin_series (x : float) : float := x * series 12 2 (x * x).

(** *** Doubles, through their specification *)

(** A double is a zero of either sign. *)
Definition zero_SF (x : float) : Prop := exists s, Prim2SF x = S754_zero s.

(** A double is the positive zero. *)
Definition pzero_SF (x : float) : Prop := Prim2SF x = S754_zero false.

(** [a] stands for the finite double [x] in a sum: it is [x] itself, or the
    positive zero when [x] is a zero. *)
Definition stands_for (a x : float) : Prop :=
  (zero_SF x /\ pzero_SF a) \/
  (exists s m e, Prim2SF x = S754_finite s m e /\ a = x).

(** *** Notions for the further properties *)

(** Two doubles are both NaN, or neither is and they are the same double,
    the sign of a zero included. *)
Definition same_double (x y : float) : Prop :=
  (is_nan x = true /\ is_nan y = true)
  \/ (is_nan x = false /\ is_nan y = false /\ x = y).

Definition mv_same (a b : MultiVector) : Prop :=
  Forall2 same_double (comp a) (comp b).

(** Every component is finite (neither an infinity nor a NaN); no component
    is a NaN; the bivector components are finite. *)
Definition mv_finite (m : MultiVector) : bool := forallb is_finite (comp m).

Definition mv_no_nan (m : MultiVector) : bool :=
  forallb (fun c => negb (is_nan c)) (comp m).

Definition axi_finite (axis : MultiVector) : bool :=
  (is_finite (component axis 4) && is_finite (component axis 5)
   && is_finite (component axis 6))%bool.

(** A term [t] contributes the finite double [x] to a sum of zeros. *)
Definition term_for (t x : float) : Prop :=
  (t = x /\ is_finite x = true) \/ stands_for t x.

(** [u] is the opposite of [v], up to the sign of a zero. *)
Definition opposite (u v : float) : Prop :=
  (zero_SF u /\ zero_SF v) \/ u = - v.

(** A multivector whose scalar component is [c] and whose other components
    are zeros of either sign; one whose components are all such zeros. *)
Definition scalar_like (s : MultiVector) (c : float) : Prop :=
  component s 0 = c /\ forall j, (1 <= j)%nat -> zero_SF (component s j).

Definition zero_like (z : MultiVector) : Prop :=
  forall j, zero_SF (component z j).

(** Component by component, [a] stands for [m]. *)
Definition mv_stands (a m : MultiVector) : Prop :=
  forall i, (i < 8)%nat -> stands_for (component a i) (component m i).

(** * Properties *)

(** ** Basic facts about the embedding *)

(** Decide the integer comparisons of a subscript. *)
Ltac index_cases :=
  repeat match goal with
         | |- context [(?a <? ?b)%Z] => destruct (Z.ltb_spec a b)
         | |- context [(?a <=? ?b)%Z] => destruct (Z.leb_spec a b)
         end;
  try lia; try reflexivity.

(** Iterating over a multivector yields its eight components: the subscripts
    0 to 7 return, and the one at 8 raises the [IndexError] that ends the
    loop. *)
Lemma py_iter_comp (m : MultiVector) : py_iter m = comp m.
Proof. destruct m; reflexivity. Qed.

Lemma getitem_stop (m : MultiVector) : __getitem__ m 8 = Raise IndexError.
Proof. reflexivity. Qed.

Lemma star_comp (m : MultiVector) : MultiVector_star (comp m) = m.
Proof. destruct m; reflexivity. Qed.

Lemma comp_length (m : MultiVector) : List.length (comp m) = 8%nat.
Proof. reflexivity. Qed.

Lemma seq_index_nat (len j : nat) :
  (j < len)%nat -> seq_index len (Z.of_nat j) = Ret j.
Proof.
  intros Hj. unfold seq_index. index_cases.
  simpl. now rewrite Nat2Z.id.
Qed.

Lemma seq_index_negative (i : Z) :
  (-8 <= i <= -1)%Z -> seq_index 8 i = Ret (Z.to_nat (i + 8)).
Proof.
  intros Hi. unfold seq_index. change (Z.of_nat 8) with 8%Z. index_cases.
Qed.

Lemma seq_index_outside (i : Z) :
  (i < -8 \/ 7 < i)%Z -> seq_index 8 i = Raise IndexError.
Proof.
  intros Hi. unfold seq_index. change (Z.of_nat 8) with 8%Z. index_cases.
Qed.

(** For [j] in [range(8)] the subscript [self[j]] returns, and returns
    [component self j]. *)
Lemma getitem_range (m : MultiVector) (j : nat) :
  In j (range 8) -> __getitem__ m (Z.of_nat j) = Ret (component m j).
Proof.
  intros Hj. apply in_seq in Hj.
  unfold __getitem__, array_getitem. rewrite comp_length.
  rewrite seq_index_nat by lia. reflexivity.
Qed.

Lemma component_update (m : MultiVector) (k j : nat) (x : float) :
  (k < 8)%nat -> (j < 8)%nat ->
  component (MultiVector_star (update (comp m) k x)) j
  = if Nat.eqb j k then x else component m j.
Proof.
  intros Hk Hj. destruct m.
  do 8 (destruct k as [| k];
        [do 8 (destruct j as [| j]; [reflexivity |]); lia |]).
  lia.
Qed.

Lemma sum_map_seq (f : nat -> float) (n : nat) :
  sum (map f (seq 0 n)) = sum_below n f.
Proof.
  unfold sum. induction n as [| n IH]; [reflexivity |].
  rewrite seq_S, map_app, fold_left_app, IH. reflexivity.
Qed.

Lemma nth_map_range (f : nat -> float) (n i : nat) :
  (i < n)%nat -> nth i (map f (range n)) 0 = f i.
Proof.
  intros Hi. unfold range.
  rewrite nth_indep with (d' := f 0%nat) by now rewrite length_map, length_seq.
  rewrite map_nth, seq_nth by assumption. reflexivity.
Qed.

(** A double times a multivector goes through [__rmul__] to the scaling. *)
Lemma rmul_float (v : MultiVector) (c : float) :
  __rmul__ v (PyFloat c) = Ret (PyMV (scale v c)).
Proof. reflexivity. Qed.


(** ** C1: the metric table *)


(** ** C2: the geometric product is the double sum *)

Lemma geometric_product_comp (a b : MultiVector) :
  comp (geometric_product a b) = map (double_sum a b) (range 8).
Proof.
  unfold geometric_product, double_sum.
  set (g := fun i : nat => sum _).
  assert (Hg : forall i, g i = sum_below 8 (fun j =>
            sum_below 8 (fun k => component a j * component b k * metric j k i))).
  { intros i. unfold g, range. rewrite sum_map_seq.
    cbn [sum_below]. now rewrite !sum_map_seq. }
  cbn [range seq map MultiVector_star nth comp
       real vecx vecy vecz axix axiy axiz imag].
  now rewrite !Hg.
Qed.

(** C2. For all multivectors [a] and [b] the product [a * b] takes the first
    branch of [__mul__] and returns a multivector whose component [i], for
    [i] in [0,7], is the double sum over [j] and [k] of
    [a[j] * b[k] * METRIC[j][k][i]] (the inner sum over [k], each sum added
    from index 0 upwards starting from zero).  The operands are values of the
    embedding: the method reads them and stores into neither. *)
Theorem mul_is_double_sum (a b : MultiVector) (i : Z) :
  (0 <= i <= 7)%Z ->
  __mul__ a (PyMV b) = Ret (PyMV (geometric_product a b)) /\
  __getitem__ (geometric_product a b) i = Ret (double_sum a b (Z.to_nat i)).
Proof.
  intros Hi. split; [reflexivity |].
  rewrite <- (Z2Nat.id i) at 1 by lia.
  rewrite getitem_range by (apply in_seq; lia).
  unfold component. rewrite geometric_product_comp.
  f_equal. apply nth_map_range. lia.
Qed.

Lemma mul_is_double_sum_witness :
  __mul__ VECX (PyMV VECY) = Ret (PyMV (geometric_product VECX VECY)) /\
  __getitem__ (geometric_product VECX VECY) 4 = Ret (double_sum VECX VECY 4).
Proof. apply (mul_is_double_sum VECX VECY 4). lia. Defined.

(** ** C3, C4 and C5: rotors and the sandwich product *)

Lemma series_quarter_turn : quarter_turn_trig cos_series sin_series.
Proof. split; right; left; vm_compute; reflexivity. Qed.

(** C3, as stated, fails on the code: the quarter turn about
    [get_axis(0,0,1)] does not take [get_vector(1,0,0)] near
    [get_vector(0,1,0)], neither within [2^-30] nor even within a half; its
    [y] component is [0.0] and its [z] component is [1.0]. *)
Lemma quarter_turn_not_vecy :
  ~ quarter_turn_claim 0x1p-30 (get_vector 0 1 0) /\
  ~ quarter_turn_claim 0x1p-1 (get_vector 0 1 0) /\
  rotate cos_series sin_series (get_vector 1 0 0) (get_axis 0 0 1) (pi / 2)
  = Ret (mkMV 0 0x1p-52 0 1 0 0 0 0).
Proof.
  repeat apply conj.
  - intros H.
    destruct (H cos_series sin_series series_quarter_turn) as [m [Hm Hclose]].
    vm_compute in Hm. injection Hm as <-. vm_compute in Hclose. discriminate Hclose.
  - intros H.
    destruct (H cos_series sin_series series_quarter_turn) as [m [Hm Hclose]].
    vm_compute in Hm. injection Hm as <-. vm_compute in Hclose. discriminate Hclose.
  - vm_compute. reflexivity.
Qed.

(** C5, as stated, fails at an infinite angle: [math.cos] raises
    [ValueError] there, so [rotor] returns no multivector. *)
Lemma rotor_infinite_angle : ~ rotor_claim cos_series sin_series AXIZ infinity.
Proof.
  intros (a4 & a5 & a6 & m & _ & _ & _ & Hm & _).
  vm_compute in Hm. discriminate Hm.
Qed.

(** Signs of doubles: halving commutes with negation, and a double is
    infinite exactly when its opposite is. *)
Module DoubleSigns.

Lemma binary_round_aux_opp (s : bool) (m e : Z) (l : location) :
  binary_round_aux prec emax (negb s) m e l
  = SFopp (binary_round_aux prec emax s m e l).
Proof.
  unfold binary_round_aux.
  destruct (shr_fexp prec emax m e l) as [mrs' e'].
  destruct (shr_fexp prec emax _ e' loc_Exact) as [mrs'' e''].
  destruct (shr_m mrs''); try reflexivity.
  now destruct (e'' <=? emax - prec)%Z.
Qed.

Lemma SFdiv_opp_l (x y : spec_float) :
  SF64div (SFopp x) y = SFopp (SF64div x y).
Proof.
  unfold SF64div, SFdiv.
  destruct x as [sx | sx | | sx mx ex], y as [sy | sy | | sy my ey];
    cbn [SFopp]; rewrite ?negb_xorb_l; try reflexivity.
  destruct (SFdiv_core_binary prec emax (Z.pos mx) ex (Z.pos my) ey) as [[mz ez] lz].
  rewrite <- negb_xorb_l. apply binary_round_aux_opp.
Qed.

Lemma div_opp_l (x y : float) : (- x) / y = - (x / y).
Proof. apply Prim2SF_inj. now rewrite opp_spec, !div_spec, opp_spec, SFdiv_opp_l. Qed.

Lemma is_infinity_opp (x : float) : is_infinity (- x) = is_infinity x.
Proof.
  unfold is_infinity. rewrite !eqb_spec, !abs_spec, opp_spec.
  now destruct (Prim2SF x).
Qed.

Lemma is_infinity_half_opp (theta : float) :
  is_infinity ((- theta) / 2) = is_infinity (theta / 2).
Proof. now rewrite div_opp_l, is_infinity_opp. Qed.

End DoubleSigns.

Section Rotations.

Variables cos sin : float -> float.

(** Where the angle is not infinite, [rotor] returns the rotor built from
    the library's cosine and sine. *)
Lemma rotor_returns (axis : MultiVector) (theta : float) :
  is_infinity theta = false ->
  rotor cos sin axis theta = Ret (rotor2 axis (cos theta) (sin theta)).
Proof. intros H. unfold rotor, math_cos, math_sin, math_fn. now rewrite H. Qed.

Lemma rotor_raises (axis : MultiVector) (theta : float) :
  is_infinity theta = true -> rotor cos sin axis theta = Raise ValueError.
Proof. intros H. unfold rotor, math_cos, math_sin, math_fn. now rewrite H. Qed.

(** C5, amended. For every axis multivector and every angle that is not
    infinite, [rotor(axis, theta)] returns a multivector with scalar
    component [cos(theta)], bivector components [axis[4] * sin(theta)],
    [axis[5] * sin(theta)], [axis[6] * sin(theta)], and zero vector and
    pseudoscalar components; at an infinite angle it raises [ValueError];
    two axes that agree on components 4, 5 and 6 give the same outcome. *)
Theorem rotor_components (axis : MultiVector) (theta : float) :
  (is_infinity theta = false ->
   exists (a4 a5 a6 : float) (m : MultiVector),
     __getitem__ axis 4 = Ret a4 /\ __getitem__ axis 5 = Ret a5 /\
     __getitem__ axis 6 = Ret a6 /\
     rotor cos sin axis theta = Ret m /\
     comp m = [cos theta; 0; 0; 0; a4 * sin theta; a5 * sin theta; a6 * sin theta; 0]) /\
  (is_infinity theta = true -> rotor cos sin axis theta = Raise ValueError) /\
  (forall axis' : MultiVector,
      axi_part axis' = axi_part axis ->
      rotor cos sin axis' theta = rotor cos sin axis theta).
Proof.
  repeat apply conj.
  - intros Hfin.
    exists (component axis 4), (component axis 5), (component axis 6),
      (rotor2 axis (cos theta) (sin theta)).
    repeat apply conj; try reflexivity. now apply rotor_returns.
  - apply rotor_raises.
  - intros axis' H. unfold axi_part in H. injection H as H4 H5 H6.
    unfold rotor, rotor2. now rewrite H4, H5, H6.
Qed.

(** Where the half angle is not infinite, [rotate] returns the sandwich of
    the two rotors the code builds. *)
Lemma rotate_unfold (self axis : MultiVector) (theta : float) :
  is_infinity (theta / 2) = false ->
  rotate cos sin self axis theta
  = Ret ((rotor2 axis (cos (theta / 2)) (sin (theta / 2)) * self)
         * rotor2 axis (cos (theta / 2)) (- sin (theta / 2)))%mv.
Proof. intros H. unfold rotate, math_cos, math_sin, math_fn. now rewrite H. Qed.

(** C4. For every multivector, axis and angle, where the library's cosine is
    even and its sine is odd at the half angle, [rotate(self, axis, theta)]
    is the sandwich [(L * self) * R] with [L = rotor(axis, theta/2)] and
    [R = rotor(axis, -theta/2)]; [R] is the rotor the code builds from the
    negated half-angle sine, and the result is that of
    [rotate2(self, axis, cos(theta/2), sin(theta/2))] and of
    [rotate3(self, L, R)].  Each side raises [ValueError] where the other
    does (at an infinite angle). *)
Theorem rotate_is_sandwich (self axis : MultiVector) (theta : float) :
  cos ((- theta) / 2) = cos (theta / 2) ->
  sin ((- theta) / 2) = - sin (theta / 2) ->
  rotor cos sin axis ((- theta) / 2)
  = (c <- math_cos cos (theta / 2) ;; s <- math_sin sin (theta / 2) ;;
     Ret (rotor2 axis c (- s))) /\
  rotate cos sin self axis theta
  = (L <- rotor cos sin axis (theta / 2) ;;
     R <- rotor cos sin axis ((- theta) / 2) ;;
     Ret ((L * self) * R)%mv) /\
  rotate cos sin self axis theta
  = (c <- math_cos cos (theta / 2) ;; s <- math_sin sin (theta / 2) ;;
     Ret (rotate2 self axis c s)) /\
  rotate cos sin self axis theta
  = (L <- rotor cos sin axis (theta / 2) ;;
     R <- rotor cos sin axis ((- theta) / 2) ;;
     Ret (rotate3 self L R)).
Proof.
  intros Hcos Hsin.
  pose proof (DoubleSigns.is_infinity_half_opp theta) as Hinf.
  unfold rotate, rotor, math_cos, math_sin, math_fn. rewrite Hinf.
  destruct (is_infinity (theta / 2)); cbn [bind].
  - repeat apply conj; reflexivity.
  - rewrite Hcos, Hsin. repeat apply conj; reflexivity.
Qed.

(** C3 (a defect of the code). Rotating by [pi/2] about [get_axis(0,0,1)],
    the axis with [z] component 1, the code turns about the [y] axis
    instead: it takes [get_vector(1,0,0)] to approximately
    [get_vector(0,0,1)] and not near [get_vector(0,1,0)], leaves
    [get_vector(0,1,0)] where it is, and takes [get_vector(0,0,1)], which a
    turn about [z] would fix, to approximately [get_vector(-1,0,0)]; each up
    to [2^-50] in every component, whenever the library's cosine and sine at
    the half angle are within one step of the nearest doubles. *)
Theorem quarter_turn_about_axiz :
  quarter_turn_trig cos sin ->
  (exists m : MultiVector,
     rotate cos sin (get_vector 1 0 0) (get_axis 0 0 1) (pi / 2) = Ret m /\
     mv_close 0x1p-50 m (get_vector 0 0 1) = true /\
     mv_close 0x1p-1 m (get_vector 0 1 0) = false) /\
  (exists m : MultiVector,
     rotate cos sin (get_vector 0 1 0) (get_axis 0 0 1) (pi / 2) = Ret m /\
     mv_close 0x1p-50 m (get_vector 0 1 0) = true) /\
  (exists m : MultiVector,
     rotate cos sin (get_vector 0 0 1) (get_axis 0 0 1) (pi / 2) = Ret m /\
     mv_close 0x1p-50 m (get_vector (-1) 0 0) = true).
Proof.
  intros [Hc Hs].
  rewrite !rotate_unfold by reflexivity.
  cbn [In] in Hc, Hs.
  destruct Hc as [Hc | [Hc | [Hc | []]]];
    destruct Hs as [Hs | [Hs | [Hs | []]]];
    rewrite <- Hc, <- Hs;
    repeat apply conj; eexists; repeat apply conj;
      try reflexivity; vm_compute; reflexivity.
Qed.

End Rotations.

Lemma rotor_components_witness :
  (exists (a4 a5 a6 : float) (m : MultiVector),
     __getitem__ (get_axis 1 2 3) 4 = Ret a4 /\ __getitem__ (get_axis 1 2 3) 5 = Ret a5 /\
     __getitem__ (get_axis 1 2 3) 6 = Ret a6 /\
     rotor cos_series sin_series (get_axis 1 2 3) 1 = Ret m /\
     comp m = [cos_series 1; 0; 0; 0;
               a4 * sin_series 1; a5 * sin_series 1; a6 * sin_series 1; 0]) /\
  rotor cos_series sin_series (get_axis 1 2 3) neg_infinity = Raise ValueError /\
  rotor cos_series sin_series (mkMV 9 9 9 9 1 2 3 9) 1
  = rotor cos_series sin_series (get_axis 1 2 3) 1.
Proof.
  repeat apply conj.
  - apply (proj1 (rotor_components cos_series sin_series (get_axis 1 2 3) 1)).
    vm_compute. reflexivity.
  - apply (proj1 (proj2 (rotor_components cos_series sin_series (get_axis 1 2 3)
                           neg_infinity))).
    vm_compute. reflexivity.
  - apply (proj2 (proj2 (rotor_components cos_series sin_series (get_axis 1 2 3) 1))).
    reflexivity.
Defined.

Lemma rotate_is_sandwich_witness :
  rotate cos_series sin_series (get_vector 1 2 3) (get_axis 0 0 1) 1
  = (L <- rotor cos_series sin_series (get_axis 0 0 1) (1 / 2) ;;
     R <- rotor cos_series sin_series (get_axis 0 0 1) ((- 1) / 2) ;;
     Ret (rotate3 (get_vector 1 2 3) L R)).
Proof.
  apply (rotate_is_sandwich cos_series sin_series
           (get_vector 1 2 3) (get_axis 0 0 1) 1); vm_compute; reflexivity.
Defined.

Lemma quarter_turn_about_axiz_witness :
  exists m : MultiVector,
    rotate cos_series sin_series (get_vector 1 0 0) (get_axis 0 0 1) (pi / 2) = Ret m /\
    mv_close 0x1p-50 m (get_vector 0 0 1) = true /\
    mv_close 0x1p-1 m (get_vector 0 1 0) = false.
Proof.
  apply (proj1 (quarter_turn_about_axiz cos_series sin_series
                  ltac:(split; right; left; vm_compute; reflexivity))).
Defined.

(** ** C6: linear combinations *)

Lemma firstn_snoc {A : Type} (l : list A) (n : nat) (d : A) :
  (n < List.length l)%nat -> firstn (S n) l = firstn n l ++ [nth n l d].
Proof.
  revert n. induction l as [| h t IH]; intros n Hn; simpl in Hn; [lia |].
  destruct n as [| n]; [reflexivity |].
  cbn [firstn nth]. rewrite <- app_comm_cons.
  f_equal. apply IH. lia.
Qed.

Lemma fold_weighted_sum (system : list MultiVector) (coeffs : list float) (n : nat) :
  List.length system = List.length coeffs ->
  (n <= List.length system)%nat ->
  fold_left __add__
    (map (fun '(c, v) => scale v c) (firstn n (combine coeffs system))) ZERO
  = weighted_sum n system coeffs.
Proof.
  intros Hlen. induction n as [| n IH]; intros Hn; [reflexivity |].
  rewrite (firstn_snoc _ _ (0, ZERO))
    by (rewrite length_combine, <- Hlen, Nat.min_id; lia).
  rewrite map_app, fold_left_app, IH by lia.
  rewrite combine_nth by now symmetry.
  reflexivity.
Qed.

(** C6. For all sequences [system] of multivectors and [coeffs] of doubles:
    if their lengths differ, [linear_combination] returns no multivector but
    the empty result [None]; if they are equal, it returns the sum over [i]
    of [coeffs[i] * system[i]]. *)
Theorem linear_combination_lengths (system : list MultiVector) (coeffs : list float) :
  (List.length system <> List.length coeffs ->
   linear_combination system coeffs = PyNone) /\
  (List.length system = List.length coeffs ->
   linear_combination system coeffs
   = PyMV (weighted_sum (List.length system) system coeffs)).
Proof.
  unfold linear_combination. split; intros Hlen.
  - apply Nat.eqb_neq in Hlen. now rewrite Hlen.
  - rewrite (proj2 (Nat.eqb_eq _ _) Hlen). f_equal.
    rewrite <- (fold_weighted_sum system coeffs (List.length system) Hlen (le_n _)).
    rewrite firstn_all2; [reflexivity |].
    rewrite length_combine, <- Hlen, Nat.min_id. apply le_n.
Qed.

Lemma linear_combination_lengths_witness :
  linear_combination AXIS_BASIS [1; 2] = PyNone /\
  linear_combination AXIS_BASIS [1; 2; 3]
  = PyMV (weighted_sum 3 AXIS_BASIS [1; 2; 3]).
Proof.
  split.
  - apply (proj1 (linear_combination_lengths AXIS_BASIS [1; 2])). simpl. lia.
  - apply (proj2 (linear_combination_lengths AXIS_BASIS [1; 2; 3])). reflexivity.
Defined.

(** ** C7: the vector basis round trip *)

(** C7, as stated, fails for an infinite coefficient: infinity times the
    zero components of [VECX] is NaN, so the scalar component of the
    combination is NaN and not [0.0]. *)
Lemma round_trip_infinity : ~ round_trip_claim infinity 0 0.
Proof.
  intros [m [Hm Heq]]. vm_compute in Hm. injection Hm as <-.
  vm_compute in Heq. discriminate Heq.
Qed.

Module Doubles.

Lemma one_SF : Prim2SF 1 = S754_finite false 4503599627370496 (-52).
Proof. reflexivity. Qed.

Lemma pzero_0 : pzero_SF 0.
Proof. reflexivity. Qed.

(** A double that [is_finite] is a zero or has a mantissa and an exponent;
    any other is a NaN or an infinity. *)
Lemma finite_cases (x : float) :
  is_finite x = true ->
  zero_SF x \/ exists s m e, Prim2SF x = S754_finite s m e.
Proof.
  unfold is_finite, is_nan, is_infinity.
  rewrite !eqb_spec, abs_spec.
  destruct (Prim2SF x) as [s | s | | s m e] eqn:Hx.
  - intros _. left. now exists s.
  - destruct s; discriminate.
  - discriminate.
  - intros _. right. now exists s, m, e.
Qed.

Lemma SFcompare_refl (s : bool) (m : positive) (e : Z) :
  SFcompare (S754_finite s m e) (S754_finite s m e) = Some Eq.
Proof.
  unfold SFcompare. rewrite Z.compare_refl.
  change (Pos.compare_cont Eq m m) with (Pos.compare m m).
  rewrite Pos.compare_refl. now destruct s.
Qed.

Lemma not_finite_cases (x : float) :
  is_finite x = false ->
  Prim2SF x = S754_nan \/ exists s, Prim2SF x = S754_infinity s.
Proof.
  unfold is_finite, is_nan, is_infinity.
  rewrite !eqb_spec, abs_spec.
  destruct (Prim2SF x) as [s | s | | s m e] eqn:Hx.
  - destruct s; discriminate.
  - intros _. right. now exists s.
  - intros _. now left.
  - unfold SFeqb. rewrite SFcompare_refl. discriminate.
Qed.

(** Multiplying the double [1.0], whose mantissa is [2^52] and whose exponent
    is [-52], by a finite double in canonical form: the product of the
    mantissas is shifted back by 52 bits with nothing lost. *)
Lemma SFmul_one_l (s : bool) (m : positive) (e : Z) :
  bounded prec emax m e = true ->
  SF64mul (S754_finite false 4503599627370496 (-52)) (S754_finite s m e)
  = S754_finite s m e.
Proof.
  intros Hb. unfold bounded, canonical_mantissa in Hb.
  apply andb_true_iff in Hb as [Hc He].
  apply Z.eqb_eq in Hc.
  unfold SF64mul, SFmul. cbn [xorb Pos.mul].
  unfold binary_round_aux, shr_fexp.
  cbn [Zdigits2 digits2_pos shr_record_of_loc].
  set (D := digits2_pos m) in *.
  match goal with
  | |- context [(fexp prec emax ?a - ?b)%Z] =>
      replace (fexp prec emax a - b)%Z with 52%Z
        by (revert Hc; unfold fexp; rewrite !Pos2Z.inj_succ; lia)
  end.
  cbn [shr iter_pos shr_1 orb shr_m loc_of_shr_record round_nearest_even Zdigits2].
  fold D.
  replace (-52 + e + 52)%Z with e by lia.
  rewrite Hc, Z.sub_diag. cbn [shr shr_m]. now rewrite He.
Qed.

(** [1.0 * x] is [x] for every finite [x]. *)
Lemma mul_one_finite (x : float) : is_finite x = true -> 1 * x = x.
Proof.
  intros Hx. apply Prim2SF_inj. rewrite mul_spec, one_SF.
  destruct (finite_cases x Hx) as [[s Hs] | [s [m [e Hs]]]]; rewrite Hs.
  - reflexivity.
  - apply SFmul_one_l. pose proof (Prim2SF_valid x) as Hv. now rewrite Hs in Hv.
Qed.

(** [0.0 * x] is a zero for every finite [x], and a NaN for any other. *)
Lemma mul_zero_finite (x : float) : is_finite x = true -> zero_SF (0 * x).
Proof.
  intros Hx. unfold zero_SF. rewrite mul_spec, pzero_0.
  destruct (finite_cases x Hx) as [[s Hs] | [s [m [e Hs]]]]; rewrite Hs;
    now exists (xorb false s).
Qed.

Lemma mul_zero_not_finite (x : float) :
  is_finite x = false -> Prim2SF (0 * x) = S754_nan.
Proof.
  intros Hx. rewrite mul_spec, pzero_0.
  destruct (not_finite_cases x Hx) as [Hs | [s Hs]]; now rewrite Hs.
Qed.

Lemma add_nan_l (a b : float) : Prim2SF a = S754_nan -> Prim2SF (a + b) = S754_nan.
Proof. intros Ha. now rewrite add_spec, Ha. Qed.

Lemma add_nan_r (a b : float) : Prim2SF b = S754_nan -> Prim2SF (a + b) = S754_nan.
Proof. intros Hb. rewrite add_spec, Hb. now destruct (Prim2SF a). Qed.

Lemma nan_eqb (a b : float) : Prim2SF a = S754_nan -> (a =? b) = false.
Proof. intros Ha. now rewrite eqb_spec, Ha. Qed.

Lemma add_zero_zero (a b : float) : pzero_SF a -> zero_SF b -> pzero_SF (a + b).
Proof.
  unfold pzero_SF. intros Ha [s Hb]. rewrite add_spec, Ha, Hb. now destruct s.
Qed.

Lemma add_zero_finite (a x : float) :
  pzero_SF a -> is_finite x = true -> stands_for (a + x) x.
Proof.
  intros Ha Hx.
  destruct (finite_cases x Hx) as [Hz | [s [m [e Hs]]]].
  - left. split; [assumption | now apply add_zero_zero].
  - right. exists s, m, e. split; [assumption |].
    apply Prim2SF_inj. now rewrite add_spec, Ha, Hs.
Qed.

Lemma stands_for_add_zero (a x b : float) :
  stands_for a x -> zero_SF b -> stands_for (a + b) x.
Proof.
  intros [[Hz Ha] | [s [m [e [Hs ->]]]]] Hb.
  - left. split; [assumption | now apply add_zero_zero].
  - right. exists s, m, e. split; [assumption |].
    destruct Hb as [sb Hb].
    apply Prim2SF_inj. now rewrite add_spec, Hs, Hb.
Qed.

Lemma stands_for_eqb (a x : float) : stands_for a x -> (a =? x) = true.
Proof.
  intros [[[s Hz] Ha] | [s [m [e [Hs ->]]]]]; rewrite eqb_spec.
  - now rewrite Ha, Hz.
  - rewrite Hs. unfold SFeqb. now rewrite SFcompare_refl.
Qed.

Lemma pzero_eqb (a : float) : pzero_SF a -> (a =? 0) = true.
Proof. intros Ha. now rewrite eqb_spec, Ha, pzero_0. Qed.

End Doubles.

Import Doubles.

(** The combination of the vector basis, component by component: each
    coefficient meets the [1.0] of its own basis vector and the [0.0] of the
    two others, and the products are added to the [0.0] of [ZERO]. *)
Lemma vector_basis_combination (x y z : float) :
  linear_combination VECTOR_BASIS [x; y; z]
  = PyMV (mkMV (0 + 0 * x + 0 * y + 0 * z)
               (0 + 1 * x + 0 * y + 0 * z)
               (0 + 0 * x + 1 * y + 0 * z)
               (0 + 0 * x + 0 * y + 1 * z)
               (0 + 0 * x + 0 * y + 0 * z)
               (0 + 0 * x + 0 * y + 0 * z)
               (0 + 0 * x + 0 * y + 0 * z)
               (0 + 0 * x + 0 * y + 0 * z)).
Proof. reflexivity. Qed.

Lemma mv_eqb_components (a b : MultiVector) :
  mv_eqb a b
  = ((real a =? real b) && (vecx a =? vecx b) && (vecy a =? vecy b)
     && (vecz a =? vecz b) && (axix a =? axix b) && (axiy a =? axiy b)
     && (axiz a =? axiz b) && (imag a =? imag b))%bool.
Proof.
  unfold mv_eqb. cbn [comp combine forallb].
  rewrite andb_true_r, !andb_assoc. reflexivity.
Qed.

(** C7, amended. For all finite doubles [x], [y], [z] (neither infinite nor
    NaN), [linear_combination(VECTOR_BASIS, (x, y, z))] is a multivector
    equal to [get_vector(x, y, z)] component by component. *)
Theorem linear_combination_vector_basis (x y z : float) :
  is_finite x = true -> is_finite y = true -> is_finite z = true ->
  exists m : MultiVector,
    linear_combination VECTOR_BASIS [x; y; z] = PyMV m /\
    mv_eqb m (get_vector x y z) = true.
Proof.
  intros Hx Hy Hz.
  eexists. split; [apply vector_basis_combination |].
  pose proof (mul_zero_finite x Hx) as Zx.
  pose proof (mul_zero_finite y Hy) as Zy.
  pose proof (mul_zero_finite z Hz) as Zz.
  assert (H1 : pzero_SF (0 + 0 * x))
    by (apply add_zero_zero; [apply pzero_0 | assumption]).
  assert (H2 : pzero_SF (0 + 0 * x + 0 * y)) by now apply add_zero_zero.
  assert (H3 : pzero_SF (0 + 0 * x + 0 * y + 0 * z)) by now apply add_zero_zero.
  rewrite mv_eqb_components.
  cbn [get_vector real vecx vecy vecz axix axiy axiz imag].
  rewrite (mul_one_finite x Hx), (mul_one_finite y Hy), (mul_one_finite z Hz).
  rewrite (pzero_eqb _ H3).
  rewrite (stands_for_eqb (0 + x + 0 * y + 0 * z) x)
    by (do 2 (apply stands_for_add_zero; [| assumption]);
        apply add_zero_finite; [apply pzero_0 | assumption]).
  rewrite (stands_for_eqb (0 + 0 * x + y + 0 * z) y)
    by (apply stands_for_add_zero; [| assumption];
        apply add_zero_finite; assumption).
  rewrite (stands_for_eqb (0 + 0 * x + 0 * y + z) z)
    by (apply add_zero_finite; assumption).
  reflexivity.
Qed.

Lemma linear_combination_vector_basis_witness :
  exists m : MultiVector,
    linear_combination VECTOR_BASIS [3; -0; 0x1p-1074] = PyMV m /\
    mv_eqb m (get_vector 3 (-0) 0x1p-1074) = true.
Proof.
  apply (linear_combination_vector_basis 3 (-0) 0x1p-1074); vm_compute; reflexivity.
Defined.

(** The restriction of C7 to finite coefficients is the least one: whenever
    the round trip holds, the three coefficients are finite. *)
Lemma round_trip_only_finite (x y z : float) :
  round_trip_claim x y z ->
  is_finite x = true /\ is_finite y = true /\ is_finite z = true.
Proof.
  intros [m [Hm Heq]]. rewrite vector_basis_combination in Hm.
  injection Hm as <-. rewrite mv_eqb_components in Heq.
  cbn [get_vector real vecx vecy vecz axix axiy axiz imag] in Heq.
  repeat (apply andb_true_iff in Heq as [Heq ?]).
  destruct (is_finite x) eqn:Hx, (is_finite y) eqn:Hy, (is_finite z) eqn:Hz;
    try (repeat split; reflexivity);
    exfalso;
    assert (Hnan : Prim2SF (0 + 0 * x + 0 * y + 0 * z) = S754_nan)
      by (first
            [ apply add_nan_r; now apply mul_zero_not_finite
            | apply add_nan_l, add_nan_r; now apply mul_zero_not_finite
            | apply add_nan_l, add_nan_l, add_nan_r; now apply mul_zero_not_finite ]);
    rewrite (nan_eqb _ 0 Hnan) in Heq; discriminate Heq.
Qed.

(** ** C8: the dispatch of the multiplication *)




(** ** C9 and C10: subscripts *)

(** C9, as stated, fails: [IMAG[-1]] is outside [0,7] and returns the last
    component, [1.0]. *)
Lemma getitem_claim_fails : ~ getitem_claim IMAG (-1).
Proof.
  intros [Hout _].
  assert (H : __getitem__ IMAG (-1) = Raise IndexError) by (apply Hout; lia).
  vm_compute in H. discriminate H.
Qed.

(** C9, amended. For every multivector and every integer [i] outside
    [-8,7], the read [value[i]] raises [IndexError]; for [i] within [0,7] it
    returns component [i]. *)
Theorem getitem_index_range (m : MultiVector) (i : Z) :
  ((i < -8 \/ 7 < i)%Z -> __getitem__ m i = Raise IndexError) /\
  ((0 <= i <= 7)%Z -> __getitem__ m i = Ret (component m (Z.to_nat i))).
Proof.
  split; intros Hi.
  - unfold __getitem__, array_getitem. rewrite comp_length.
    now rewrite seq_index_outside.
  - rewrite <- (Z2Nat.id i) at 1 by lia.
    apply getitem_range, in_seq. lia.
Qed.

Lemma getitem_index_range_witness :
  __getitem__ IMAG 8 = Raise IndexError /\
  __getitem__ IMAG (-9) = Raise IndexError /\
  __getitem__ IMAG 7 = Ret 1.
Proof.
  repeat apply conj.
  - apply (proj1 (getitem_index_range IMAG 8)). lia.
  - apply (proj1 (getitem_index_range IMAG (-9))). lia.
  - apply (proj2 (getitem_index_range IMAG 7)). lia.
Defined.

(** C10. For every multivector and every integer [i] with [-8 <= i <= -1],
    the read [value[i]] returns component [i + 8] without raising, and the
    write [value[i] = x] returns without raising and leaves an object whose
    component [i + 8] is [x] (the other components being as before). *)
Theorem negative_index_wraps (m : MultiVector) (i : Z) (x : float) :
  (-8 <= i <= -1)%Z ->
  __getitem__ m i = Ret (component m (Z.to_nat (i + 8))) /\
  exists m',
    __setitem__ m (PyInt i) x = Ret m' /\
    __getitem__ m' (i + 8) = Ret x /\
    forall j, (j < 8)%nat -> j <> Z.to_nat (i + 8) -> component m' j = component m j.
Proof.
  intros Hi. split.
  - unfold __getitem__, array_getitem. rewrite comp_length.
    now rewrite seq_index_negative.
  - exists (MultiVector_star (update (comp m) (Z.to_nat (i + 8)) x)).
    repeat apply conj.
    + unfold __setitem__, array_setitem. rewrite comp_length.
      now rewrite seq_index_negative.
    + rewrite <- (Z2Nat.id (i + 8)) at 2 by lia.
      rewrite getitem_range by (apply in_seq; lia).
      rewrite component_update by lia. now rewrite Nat.eqb_refl.
    + intros j Hj Hne. rewrite component_update by lia.
      apply Nat.eqb_neq in Hne. now rewrite Hne.
Qed.

Lemma negative_index_wraps_witness :
  __getitem__ IMAG (-1) = Ret (component IMAG (Z.to_nat (-1 + 8))) /\
  exists m',
    __setitem__ IMAG (PyInt (-1)) 2 = Ret m' /\
    __getitem__ m' (-1 + 8) = Ret 2 /\
    forall j, (j < 8)%nat -> j <> Z.to_nat (-1 + 8) -> component m' j = component IMAG j.
Proof. apply (negative_index_wraps IMAG (-1) 2). lia. Defined.

Lemma round_trip_only_finite_witness :
  is_finite 1 = true /\ is_finite 2 = true /\ is_finite 3 = true.
Proof.
  apply (round_trip_only_finite 1 2 3).
  eexists. split; vm_compute; reflexivity.
Defined.

(** * Further properties of the operators *)

(** ** More on doubles *)

Module DoubleArith.
Import Doubles DoubleSigns.

Lemma SFopp_involutive (x : spec_float) : SFopp (SFopp x) = x.
Proof. destruct x as [s | s | | s m e]; cbn; now rewrite ?negb_involutive. Qed.

Lemma opp_involutive (x : float) : - - x = x.
Proof. apply Prim2SF_inj. now rewrite !opp_spec, SFopp_involutive. Qed.

Lemma SFsub_add_opp (x y : spec_float) :
  SF64sub x y = SF64add x (SFopp y).
Proof.
  unfold SF64sub, SF64add.
  destruct x as [sx | sx | | sx mx ex], y as [sy | sy | | sy my ey]; cbn;
    try reflexivity;
    destruct sx, sy; reflexivity.
Qed.

Lemma sub_add_opp (x y : float) : x - y = x + - y.
Proof. apply Prim2SF_inj. now rewrite sub_spec, add_spec, opp_spec, SFsub_add_opp. Qed.

Lemma SFadd_comm (x y : spec_float) : SF64add x y = SF64add y x.
Proof.
  unfold SF64add.
  destruct x as [sx | sx | | sx mx ex], y as [sy | sy | | sy my ey]; cbn;
    try reflexivity;
    try (destruct sx, sy; reflexivity).
  rewrite (Z.min_comm ey ex). f_equal. apply Z.add_comm.
Qed.

Lemma add_comm (x y : float) : x + y = y + x.
Proof. apply Prim2SF_inj. now rewrite !add_spec, SFadd_comm. Qed.

(** [x - x] is the positive zero for every finite [x]. *)
Lemma sub_self (x : float) : is_finite x = true -> x - x = 0.
Proof.
  intros Hx. apply Prim2SF_inj. rewrite sub_spec.
  destruct (finite_cases x Hx) as [[s Hs] | [s [m [e Hs]]]]; rewrite Hs.
  - now destruct s.
  - unfold SF64sub, SFsub. now rewrite Z.sub_diag.
Qed.

Lemma not_nan_cases (x : float) :
  is_nan x = false ->
  zero_SF x \/ (exists s, Prim2SF x = S754_infinity s)
  \/ exists s m e, Prim2SF x = S754_finite s m e.
Proof.
  unfold is_nan. rewrite eqb_spec.
  destruct (Prim2SF x) as [s | s | | s m e] eqn:Hx; intros H.
  - left. now exists s.
  - right. left. now exists s.
  - discriminate.
  - right. right. now exists s, m, e.
Qed.

Lemma SFeqb_refl (x : spec_float) : x <> S754_nan -> SFeqb x x = true.
Proof.
  destruct x as [s | s | | s m e]; intros H; try reflexivity.
  - now destruct s.
  - now destruct H.
  - unfold SFeqb. now rewrite SFcompare_refl.
Qed.

(** Adding the positive zero on either side gives a double equal (under
    [==]) to the other operand, unless that is a NaN. *)
Lemma add_zero_eqb (x : float) :
  is_nan x = false -> (0 + x =? x) = true /\ (x + 0 =? x) = true.
Proof.
  intros Hx. rewrite !eqb_spec, !add_spec, pzero_0.
  destruct (not_nan_cases x Hx) as [[s Hs] | [[s Hs] | [s [m [e Hs]]]]];
    rewrite Hs.
  - now destruct s.
  - split; apply SFeqb_refl; discriminate.
  - split; apply SFeqb_refl; discriminate.
Qed.

Lemma SFmul_one_r (s : bool) (m : positive) (e : Z) :
  bounded prec emax m e = true ->
  SF64mul (S754_finite s m e) (S754_finite false 4503599627370496 (-52))
  = S754_finite s m e.
Proof.
  intros Hb. rewrite <- (SFmul_one_l s m e Hb) at 2.
  unfold SF64mul, SFmul.
  now rewrite Pos.mul_comm, Z.add_comm, xorb_false_r.
Qed.

(** [1.0 * x] and [x * 1.0] are [x], for every double [x]. *)
Lemma mul_one_l (x : float) : 1 * x = x.
Proof.
  apply Prim2SF_inj. rewrite mul_spec, one_SF.
  pose proof (Prim2SF_valid x) as Hv.
  destruct (Prim2SF x) as [s | s | | s m e]; try reflexivity.
  now apply SFmul_one_l.
Qed.

Lemma mul_one_r (x : float) : x * 1 = x.
Proof.
  apply Prim2SF_inj. rewrite mul_spec, one_SF.
  pose proof (Prim2SF_valid x) as Hv.
  destruct (Prim2SF x) as [s | s | | s m e].
  - cbn. now rewrite xorb_false_r.
  - cbn. now rewrite xorb_false_r.
  - reflexivity.
  - now apply SFmul_one_r.
Qed.

Lemma minus_one_SF : Prim2SF (-1) = S754_finite true 4503599627370496 (-52).
Proof. reflexivity. Qed.

(** [x * -1.0] is [-x], for every double [x]. *)
Lemma mul_minus_one_r (x : float) : x * (-1) = - x.
Proof.
  apply Prim2SF_inj. rewrite mul_spec, opp_spec, minus_one_SF.
  pose proof (Prim2SF_valid x) as Hv.
  destruct (Prim2SF x) as [s | s | | s m e].
  - cbn. now rewrite xorb_true_r.
  - cbn. now rewrite xorb_true_r.
  - reflexivity.
  - pose proof (SFmul_one_r (negb s) m e Hv) as H.
    unfold SF64mul, SFmul in *. cbn [SFopp].
    rewrite xorb_false_r in H. now rewrite xorb_true_r.
Qed.

(** A zero times a finite double, on either side, is a zero; a zero times
    any other double is a NaN. *)
Lemma mul_zero_l (a x : float) :
  zero_SF a -> is_finite x = true -> zero_SF (a * x).
Proof.
  intros [sa Ha] Hx. unfold zero_SF. rewrite mul_spec, Ha.
  destruct (finite_cases x Hx) as [[s Hs] | [s [m [e Hs]]]]; rewrite Hs;
    now exists (xorb sa s).
Qed.

Lemma mul_zero_r (x a : float) :
  is_finite x = true -> zero_SF a -> zero_SF (x * a).
Proof.
  intros Hx [sa Ha]. unfold zero_SF. rewrite mul_spec, Ha.
  destruct (finite_cases x Hx) as [[s Hs] | [s [m [e Hs]]]]; rewrite Hs;
    now exists (xorb s sa).
Qed.

Lemma mul_not_finite_zero (x a : float) :
  is_finite x = false -> zero_SF a -> Prim2SF (x * a) = S754_nan.
Proof.
  intros Hx [sa Ha]. rewrite mul_spec, Ha.
  destruct (not_finite_cases x Hx) as [Hs | [s Hs]]; now rewrite Hs.
Qed.

Lemma zero_is_finite (a : float) : zero_SF a -> is_finite a = true.
Proof.
  intros [s Ha]. unfold is_finite, is_nan, is_infinity.
  rewrite !eqb_spec, abs_spec, Ha. reflexivity.
Qed.

Lemma SF_finite_is_finite (x : float) s m e :
  Prim2SF x = S754_finite s m e -> is_finite x = true.
Proof.
  intros Hx. unfold is_finite, is_nan, is_infinity.
  rewrite !eqb_spec, abs_spec, Hx. unfold SFeqb. now rewrite SFcompare_refl.
Qed.

Lemma nan_is_nan (x : float) : Prim2SF x = S754_nan -> is_nan x = true.
Proof. intros Hx. unfold is_nan. now rewrite eqb_spec, Hx. Qed.

Lemma pzero_zero (a : float) : pzero_SF a -> zero_SF a.
Proof. intros Ha. now exists false. Qed.

Lemma pzero_eq (a : float) : pzero_SF a -> a = 0.
Proof. intros Ha. apply Prim2SF_inj. now rewrite Ha. Qed.

Lemma stands_for_finite (a x : float) : stands_for a x -> is_finite a = true.
Proof.
  intros [[_ Ha] | [s [m [e [Hx ->]]]]].
  - now apply zero_is_finite, pzero_zero.
  - eapply SF_finite_is_finite, Hx.
Qed.

Lemma stands_for_trans (a b c : float) :
  stands_for a b -> stands_for b c -> stands_for a c.
Proof.
  intros [[[sb Hb] Ha] | [s [m [e [Hb ->]]]]] Hbc; [| exact Hbc].
  destruct Hbc as [[Hc Hb'] | [s [m [e [Hc <-]]]]].
  - left. now split.
  - rewrite Hb in Hc. discriminate.
Qed.

Lemma add_pzero_stands (a b x : float) :
  pzero_SF a -> stands_for b x -> stands_for (a + b) x.
Proof.
  intros Ha [[Hx Hb] | [s [m [e [Hx ->]]]]].
  - left. split; [assumption |]. apply add_zero_zero; [assumption |].
    now apply pzero_zero.
  - apply add_zero_finite; [assumption |]. eapply SF_finite_is_finite, Hx.
Qed.

Lemma is_nan_SF (x : float) : is_nan x = true -> Prim2SF x = S754_nan.
Proof.
  unfold is_nan. rewrite eqb_spec. intros H.
  destruct (Prim2SF x) as [s | s | | s m e] eqn:Hx; try reflexivity;
    rewrite SFeqb_refl in H by discriminate; discriminate H.
Qed.

Lemma add_zero_l_eqb (x : float) : (0 + x =? x) = negb (is_nan x).
Proof.
  destruct (is_nan x) eqn:Hx; cbn [negb].
  - apply nan_eqb, add_nan_r, is_nan_SF, Hx.
  - apply add_zero_eqb, Hx.
Qed.

Lemma add_zero_r_eqb (x : float) : (x + 0 =? x) = negb (is_nan x).
Proof.
  destruct (is_nan x) eqn:Hx; cbn [negb].
  - apply nan_eqb, add_nan_l, is_nan_SF, Hx.
  - apply add_zero_eqb, Hx.
Qed.

Lemma mul_zero_r_eqb (x : float) : (x * 0 =? 0) = is_finite x.
Proof.
  destruct (is_finite x) eqn:Hx.
  - destruct (mul_zero_r x 0 Hx (pzero_zero 0 pzero_0)) as [s Hs].
    rewrite eqb_spec, Hs. reflexivity.
  - apply nan_eqb, mul_not_finite_zero; [assumption | apply pzero_zero, pzero_0].
Qed.

Lemma eqb_zero_SF (c : float) : (c =? 0) = true -> zero_SF c.
Proof.
  rewrite eqb_spec, pzero_0. unfold zero_SF.
  destruct (Prim2SF c) as [s | s | | s m e]; intros H.
  - now exists s.
  - destruct s; discriminate H.
  - discriminate H.
  - destruct s; discriminate H.
Qed.

Lemma SFmul_comm (x y : spec_float) : SF64mul x y = SF64mul y x.
Proof.
  unfold SF64mul, SFmul.
  destruct x as [sx | sx | | sx mx ex], y as [sy | sy | | sy my ey];
    try reflexivity; rewrite (xorb_comm sx sy); try reflexivity.
  now rewrite Pos.mul_comm, Z.add_comm.
Qed.

Lemma mul_comm (x y : float) : x * y = y * x.
Proof. apply Prim2SF_inj. now rewrite !mul_spec, SFmul_comm. Qed.

Lemma SF_not_finite (x : float) :
  Prim2SF x = S754_nan \/ (exists s, Prim2SF x = S754_infinity s) ->
  is_finite x = false.
Proof.
  intros H. destruct (is_finite x) eqn:Hx; [| reflexivity].
  destruct (finite_cases x Hx) as [[s Hs] | [s [m [e Hs]]]];
    destruct H as [H | [s' H]]; rewrite Hs in H; discriminate H.
Qed.

(** A finite product has finite factors. *)
Lemma mul_finite_inv (x c : float) :
  is_finite (x * c) = true -> is_finite x = true /\ is_finite c = true.
Proof.
  intros H.
  assert (Hl : forall a b, is_finite a = false -> is_finite (a * b) = false).
  { intros a b Ha. apply SF_not_finite. rewrite mul_spec.
    destruct (not_finite_cases a Ha) as [Hs | [s Hs]]; rewrite Hs.
    - now left.
    - destruct (Prim2SF b) as [sb | sb | | sb mb eb]; cbn;
        first [now left | right; eexists; reflexivity]. }
  destruct (is_finite x) eqn:Hx, (is_finite c) eqn:Hc; try (split; reflexivity).
  - rewrite mul_comm, Hl in H by assumption. discriminate H.
  - rewrite Hl in H by assumption. discriminate H.
  - rewrite Hl in H by assumption. discriminate H.
Qed.

Lemma SFmul_opp_l (x y : spec_float) :
  SF64mul (SFopp x) y = SFopp (SF64mul x y).
Proof.
  unfold SF64mul, SFmul.
  destruct x as [sx | sx | | sx mx ex], y as [sy | sy | | sy my ey];
    cbn [SFopp]; rewrite ?negb_xorb_l; try reflexivity.
  rewrite <- negb_xorb_l. apply binary_round_aux_opp.
Qed.

Lemma mul_opp_l (x y : float) : - x * y = - (x * y).
Proof. apply Prim2SF_inj. now rewrite opp_spec, !mul_spec, opp_spec, SFmul_opp_l. Qed.

Lemma mul_opp_r (x y : float) : x * - y = - (x * y).
Proof. now rewrite mul_comm, mul_opp_l, (mul_comm y). Qed.

Lemma binary_normalize_opp (z e : Z) :
  z <> 0%Z ->
  binary_normalize prec emax (- z) e false
  = SFopp (binary_normalize prec emax z e false).
Proof.
  intros Hz. destruct z as [| p | p]; [now destruct Hz | |]; cbn [Z.opp binary_normalize];
    unfold binary_round;
    destruct (shl_align p e _) as [mz ez].
  - apply (binary_round_aux_opp false).
  - rewrite (binary_round_aux_opp false). now rewrite SFopp_involutive.
Qed.

Lemma SFzero_cases (x : spec_float) :
  (exists s, x = S754_zero s) \/ (forall s, x <> S754_zero s).
Proof. destruct x; [left; eauto | right | right | right]; discriminate. Qed.

(** The sum of two opposites is the opposite of the sum, or both sums are
    zeros. *)
Lemma SFadd_opp (x y : spec_float) :
  SF64add (SFopp x) (SFopp y) = SFopp (SF64add x y)
  \/ ((exists s, SF64add (SFopp x) (SFopp y) = S754_zero s)
      /\ exists s, SF64add x y = S754_zero s).
Proof.
  unfold SF64add.
  destruct x as [sx | sx | | sx mx ex], y as [sy | sy | | sy my ey];
    cbn [SFopp SFadd];
    try (left; reflexivity);
    try (destruct sx, sy; first [left; reflexivity | right; split; eexists; reflexivity]).
  set (ez := Z.min ex ey).
  set (a := Z.pos (fst (shl_align mx ex ez))).
  set (b := Z.pos (fst (shl_align my ey ez))).
  clearbody a b.
  replace (cond_Zopp (negb sx) a + cond_Zopp (negb sy) b)%Z
    with (- (cond_Zopp sx a + cond_Zopp sy b))%Z
    by (destruct sx, sy; unfold cond_Zopp; cbn [negb]; lia).
  destruct (Z.eq_dec (cond_Zopp sx a + cond_Zopp sy b) 0) as [H0 | H0].
  - right. rewrite H0. split; exists false; reflexivity.
  - left. now apply binary_normalize_opp.
Qed.

Lemma opposite_zero : opposite 0 0.
Proof. left. split; now exists false. Qed.

Lemma opposite_mul_l (x y : float) : opposite (- x * y) (x * y).
Proof. right. apply mul_opp_l. Qed.

Lemma zero_add_not_zero (u x : float) :
  zero_SF u -> ~ zero_SF x -> u + x = x.
Proof.
  intros [s Hu] Hx. apply Prim2SF_inj. rewrite add_spec, Hu.
  destruct (Prim2SF x) as [sx | sx | | sx mx ex] eqn:E; try reflexivity.
  destruct Hx. now exists sx.
Qed.

Lemma opp_zero_SF (x : float) : zero_SF (- x) <-> zero_SF x.
Proof.
  unfold zero_SF. rewrite opp_spec.
  destruct (Prim2SF x) as [sx | sx | | sx mx ex]; cbn; split; intros [s H];
    first [discriminate H | eexists; reflexivity].
Qed.

Lemma zero_SF_dec (x : float) : zero_SF x \/ ~ zero_SF x.
Proof.
  unfold zero_SF. destruct (Prim2SF x) as [sx | sx | | sx mx ex];
    [left; eauto | right | right | right]; intros [s H]; discriminate H.
Qed.

Lemma opposite_add (u1 v1 u2 v2 : float) :
  opposite u1 v1 -> opposite u2 v2 -> opposite (u1 + u2) (v1 + v2).
Proof.
  intros H1 H2.
  assert (Hopp : forall a b, opposite (- a + - b) (a + b)).
  { intros a b. unfold opposite, zero_SF.
    rewrite !add_spec, !opp_spec.
    destruct (SFadd_opp (Prim2SF a) (Prim2SF b)) as [H | [Hz1 Hz2]].
    - right. apply Prim2SF_inj. now rewrite add_spec, !opp_spec, add_spec.
    - left. split; assumption. }
  destruct H1 as [[Zu1 Zv1] | ->], H2 as [[Zu2 Zv2] | ->].
  - left. split.
    + destruct Zu1 as [s1 E1], Zu2 as [s2 E2]. unfold zero_SF.
      rewrite add_spec, E1, E2. destruct s1, s2; eexists; reflexivity.
    + destruct Zv1 as [s1 E1], Zv2 as [s2 E2]. unfold zero_SF.
      rewrite add_spec, E1, E2. destruct s1, s2; eexists; reflexivity.
  - destruct (zero_SF_dec v2) as [Z2 | N2].
    + left. split.
      * destruct Zu1 as [s1 E1], (proj2 (opp_zero_SF v2) Z2) as [s2 E2].
        unfold zero_SF. rewrite add_spec, E1, E2. destruct s1, s2; eexists; reflexivity.
      * destruct Zv1 as [s1 E1], Z2 as [s2 E2]. unfold zero_SF.
        rewrite add_spec, E1, E2. destruct s1, s2; eexists; reflexivity.
    + right. rewrite (zero_add_not_zero v1 v2) by assumption.
      apply zero_add_not_zero; [assumption |].
      intros H. apply N2. now apply opp_zero_SF.
  - destruct (zero_SF_dec v1) as [Z1 | N1].
    + left. split.
      * destruct Zu2 as [s2 E2], (proj2 (opp_zero_SF v1) Z1) as [s1 E1].
        unfold zero_SF. rewrite add_spec, E1, E2. destruct s1, s2; eexists; reflexivity.
      * destruct Zv2 as [s2 E2], Z1 as [s1 E1]. unfold zero_SF.
        rewrite add_spec, E1, E2. destruct s1, s2; eexists; reflexivity.
    + right. rewrite (add_comm v1 v2), (add_comm (- v1) u2).
      rewrite (zero_add_not_zero v2 v1) by assumption.
      apply zero_add_not_zero; [assumption |].
      intros H. apply N1. now apply opp_zero_SF.
  - apply Hopp.
Qed.

(** Opposites compare equal exactly when they are not NaN. *)
Lemma opposite_eqb (u v : float) :
  opposite u v -> (u =? - v) = negb (is_nan v).
Proof.
  intros [[[su Eu] [sv Ev]] | ->].
  - rewrite eqb_spec, opp_spec, Eu, Ev. unfold is_nan.
    rewrite eqb_spec, Ev. reflexivity.
  - unfold is_nan. rewrite !eqb_spec, opp_spec.
    destruct (Prim2SF v) as [s | s | | s m e]; try reflexivity.
    + now destruct s.
    + cbn [SFopp]. unfold SFeqb. now rewrite !SFcompare_refl.
Qed.

End DoubleArith.
Import DoubleArith.

(** ** The operators, component by component *)

Lemma neg_components (m : MultiVector) :
  __neg__ m = mkMV (- real m) (- vecx m) (- vecy m) (- vecz m)
                   (- axix m) (- axiy m) (- axiz m) (- imag m).
Proof. destruct m; reflexivity. Qed.

Lemma add_components (a b : MultiVector) :
  __add__ a b = mkMV (real a + real b) (vecx a + vecx b) (vecy a + vecy b)
                     (vecz a + vecz b) (axix a + axix b) (axiy a + axiy b)
                     (axiz a + axiz b) (imag a + imag b).
Proof. destruct a, b; reflexivity. Qed.

Lemma sub_components (a b : MultiVector) :
  __sub__ a b = mkMV (real a - real b) (vecx a - vecx b) (vecy a - vecy b)
                     (vecz a - vecz b) (axix a - axix b) (axiy a - axiy b)
                     (axiz a - axiz b) (imag a - imag b).
Proof. destruct a, b; reflexivity. Qed.

Lemma scale_components (m : MultiVector) (c : float) :
  scale m c = mkMV (real m * c) (vecx m * c) (vecy m * c) (vecz m * c)
                   (axix m * c) (axiy m * c) (axiz m * c) (imag m * c).
Proof. destruct m; reflexivity. Qed.

Lemma mv_finite_fields (m : MultiVector) :
  mv_finite m
  = (is_finite (real m) && (is_finite (vecx m) && (is_finite (vecy m)
     && (is_finite (vecz m) && (is_finite (axix m) && (is_finite (axiy m)
     && (is_finite (axiz m) && (is_finite (imag m) && true))))))))%bool.
Proof. reflexivity. Qed.

Lemma mv_eqb_fields (a b : MultiVector) :
  mv_eqb a b
  = ((real a =? real b) && ((vecx a =? vecx b) && ((vecy a =? vecy b)
     && ((vecz a =? vecz b) && ((axix a =? axix b) && ((axiy a =? axiy b)
     && ((axiz a =? axiz b) && ((imag a =? imag b) && true))))))))%bool.
Proof. reflexivity. Qed.

Lemma mv_finite_components (m : MultiVector) :
  mv_finite m = true -> forall j, is_finite (component m j) = true.
Proof.
  intros H j. unfold mv_finite in H. rewrite forallb_forall in H.
  unfold component. destruct (nth_in_or_default j (comp m) 0) as [Hin | ->].
  - now apply H.
  - reflexivity.
Qed.

Lemma mv_no_nan_fields (m : MultiVector) :
  mv_no_nan m
  = (negb (is_nan (real m)) && (negb (is_nan (vecx m)) && (negb (is_nan (vecy m))
     && (negb (is_nan (vecz m)) && (negb (is_nan (axix m)) && (negb (is_nan (axiy m))
     && (negb (is_nan (axiz m)) && (negb (is_nan (imag m)) && true))))))))%bool.
Proof. reflexivity. Qed.

Lemma neg_component (m : MultiVector) (j : nat) :
  (j < 8)%nat -> component (__neg__ m) j = - component m j.
Proof.
  intros Hj. rewrite neg_components. destruct m.
  do 8 (destruct j as [| j]; [reflexivity |]). lia.
Qed.

Lemma scale_component (m : MultiVector) (c : float) (j : nat) :
  (j < 8)%nat -> component (scale m c) j = component m j * c.
Proof.
  intros Hj. rewrite scale_components. destruct m.
  do 8 (destruct j as [| j]; [reflexivity |]). lia.
Qed.

(** ** Negation, addition and subtraction *)

(** Negating twice gives back the multivector, bit for bit. *)
Theorem neg_involutive (m : MultiVector) : __neg__ (__neg__ m) = m.
Proof.
  rewrite !neg_components. cbn [real vecx vecy vecz axix axiy axiz imag].
  rewrite !opp_involutive. now destruct m.
Qed.

Lemma same_double_refl (x : float) : same_double x x.
Proof. unfold same_double. destruct (is_nan x); [left | right]; auto. Qed.

Lemma mv_same_eq (a b : MultiVector) : a = b -> mv_same a b.
Proof.
  intros <-. unfold mv_same, comp.
  repeat (apply Forall2_cons; [apply same_double_refl |]). apply Forall2_nil.
Qed.

(** Subtracting is adding the negation: in every component, [a - b] and
    [a + (-b)] are both NaN, or the same double. *)
Theorem sub_is_add_neg (a b : MultiVector) :
  mv_same (__sub__ a b) (__add__ a (__neg__ b)).
Proof.
  apply mv_same_eq.
  rewrite sub_components, add_components, neg_components.
  cbn [real vecx vecy vecz axix axiy axiz imag].
  now rewrite !sub_add_opp.
Qed.

(** Addition is commutative: in every component, [a + b] and [b + a] are
    both NaN, or the same double. *)
Theorem add_commutes (a b : MultiVector) : mv_same (__add__ a b) (__add__ b a).
Proof. apply mv_same_eq. rewrite !add_components. f_equal; apply add_comm. Qed.

(** A finite multivector minus itself, or plus its negation, is [ZERO], bit
    for bit. *)

Theorem sub_self_is_zero (m : MultiVector) :
  mv_finite m = true -> __sub__ m m = ZERO /\ __add__ m (__neg__ m) = ZERO.
Proof.
  intros H. rewrite mv_finite_fields in H.
  repeat (apply andb_true_iff in H as [? H]).
  rewrite sub_components, add_components, neg_components.
  cbn [real vecx vecy vecz axix axiy axiz imag].
  rewrite <- !sub_add_opp. now rewrite !sub_self by assumption.
Qed.

Lemma sub_self_is_zero_witness :
  __sub__ (mkMV 1 2 3 4 5 6 7 8) (mkMV 1 2 3 4 5 6 7 8) = ZERO /\
  __add__ (mkMV 1 2 3 4 5 6 7 8) (__neg__ (mkMV 1 2 3 4 5 6 7 8)) = ZERO.
Proof. apply (sub_self_is_zero (mkMV 1 2 3 4 5 6 7 8)). vm_compute. reflexivity. Defined.

(** Adding [ZERO] on either side gives a multivector equal to the other
    operand component by component, exactly when that has no NaN
    component. *)

Theorem add_zero_identity (m : MultiVector) :
  mv_eqb (__add__ ZERO m) m = mv_no_nan m /\
  mv_eqb (__add__ m ZERO) m = mv_no_nan m.
Proof.
  rewrite !add_components, !mv_eqb_fields.
  cbn [real vecx vecy vecz axix axiy axiz imag ZERO].
  rewrite !add_zero_l_eqb, !add_zero_r_eqb. split; reflexivity.
Qed.

(** ** Scaling *)

(** Scaling by [1.0], or by the int [1], returns a multivector that in every
    component is NaN where the operand is, and the same double otherwise;
    scaling by [-1.0], or by the int [-1], returns one that is so related to
    the negation. *)
Theorem scale_by_unit (m : MultiVector) :
  (exists p, __mul__ m (PyFloat 1) = Ret (PyMV p) /\ mv_same p m) /\
  (exists p, __mul__ m (PyInt 1) = Ret (PyMV p) /\ mv_same p m) /\
  (exists p, __mul__ m (PyFloat (-1)) = Ret (PyMV p) /\ mv_same p (__neg__ m)) /\
  (exists p, __mul__ m (PyInt (-1)) = Ret (PyMV p) /\ mv_same p (__neg__ m)).
Proof.
  assert (H1 : scale m 1 = m)
    by (rewrite scale_components, !mul_one_r; now destruct m).
  assert (H2 : scale m (-1) = __neg__ m)
    by (now rewrite scale_components, neg_components, !mul_minus_one_r).
  repeat apply conj; eexists; (split; [reflexivity |]); apply mv_same_eq; assumption.
Qed.

(** Scaling by [0.0] gives a multivector equal to [ZERO] component by
    component exactly when every component is finite. *)
Theorem scale_by_zero (m : MultiVector) :
  __mul__ m (PyFloat 0) = Ret (PyMV (scale m 0)) /\
  mv_eqb (scale m 0) ZERO = mv_finite m.
Proof.
  split; [reflexivity |].
  rewrite scale_components, mv_eqb_fields, mv_finite_fields.
  cbn [real vecx vecy vecz axix axiy axiz imag ZERO].
  now rewrite !mul_zero_r_eqb.
Qed.

(** ** Sums against the metric table *)

Lemma product_component (a b : MultiVector) (i : nat) :
  (i < 8)%nat -> component (geometric_product a b) i = double_sum a b i.
Proof.
  intros Hi. unfold component. rewrite geometric_product_comp.
  now apply nth_map_range.
Qed.

Lemma sum_below_zeros (n : nat) (f : nat -> float) :
  (forall k, (k < n)%nat -> zero_SF (f k)) -> pzero_SF (sum_below n f).
Proof.
  induction n as [| n IH]; intros H; [exact pzero_0 |].
  cbn [sum_below]. apply add_zero_zero; [apply IH | apply H]; auto with arith.
Qed.

Lemma sum_below_single (n : nat) (f : nat -> float) (i : nat) (x : float) :
  (i < n)%nat ->
  (forall k, (k < n)%nat -> k <> i -> zero_SF (f k)) ->
  term_for (f i) x ->
  stands_for (sum_below n f) x.
Proof.
  induction n as [| n IH]; intros Hi Hz Hx; [lia |].
  cbn [sum_below]. destruct (Nat.eq_dec i n) as [-> | Hne].
  - assert (Hp : pzero_SF (sum_below n f))
      by (apply sum_below_zeros; intros k Hk; apply Hz; lia).
    destruct Hx as [[-> Hfin] | Hs].
    + now apply add_zero_finite.
    + now apply add_pzero_stands.
  - apply stands_for_add_zero.
    + apply IH; [lia | intros k Hk; apply Hz; lia | assumption].
    + apply Hz; lia.
Qed.

Lemma sum_below_nan (n : nat) (f : nat -> float) (i : nat) :
  (i < n)%nat -> Prim2SF (f i) = S754_nan -> Prim2SF (sum_below n f) = S754_nan.
Proof.
  induction n as [| n IH]; intros Hi Hx; [lia |].
  cbn [sum_below]. destruct (Nat.eq_dec i n) as [-> | Hne].
  - now apply add_nan_r.
  - apply add_nan_l, IH; [lia | assumption].
Qed.

Lemma metric_row0 (k i : nat) :
  (k < 8)%nat -> (i < 8)%nat -> metric 0 k i = if Nat.eqb k i then 1 else 0.
Proof.
  intros Hk Hi.
  do 8 (destruct k as [| k];
        [do 8 (destruct i as [| i]; [reflexivity |]); lia |]).
  lia.
Qed.

Lemma metric_col0 (j i : nat) :
  (j < 8)%nat -> (i < 8)%nat -> metric j 0 i = if Nat.eqb j i then 1 else 0.
Proof.
  intros Hj Hi.
  do 8 (destruct j as [| j];
        [do 8 (destruct i as [| i]; [reflexivity |]); lia |]).
  lia.
Qed.

Lemma metric_finite (j k i : nat) :
  (j < 8)%nat -> (k < 8)%nat -> (i < 8)%nat -> is_finite (metric j k i) = true.
Proof.
  intros Hj Hk Hi.
  do 8 (destruct j as [| j];
        [do 8 (destruct k as [| k];
               [do 8 (destruct i as [| i]; [reflexivity |]); lia |]); lia |]).
  lia.
Qed.

Lemma metric_one_nonzero (j k : nat) :
  (j < 8)%nat -> (k < 8)%nat ->
  exists i0, (i0 < 8)%nat /\
    forall i, (i < 8)%nat -> i <> i0 -> (metric j k i =? 0) = true.
Proof.
  intros Hj Hk.
  assert (H : exists i0, (i0 < 8)%nat /\
            forallb (fun i => Nat.eqb i i0 || (metric j k i =? 0))%bool (range 8) = true).
  { do 8 (destruct j as [| j];
          [do 8 (destruct k as [| k];
                 [first [ exists 0%nat; split; [lia | reflexivity]
                        | exists 1%nat; split; [lia | reflexivity]
                        | exists 2%nat; split; [lia | reflexivity]
                        | exists 3%nat; split; [lia | reflexivity]
                        | exists 4%nat; split; [lia | reflexivity]
                        | exists 5%nat; split; [lia | reflexivity]
                        | exists 6%nat; split; [lia | reflexivity]
                        | exists 7%nat; split; [lia | reflexivity] ] |]); lia |]).
    lia. }
  destruct H as [i0 [Hi0 H]]. exists i0. split; [assumption |].
  intros i Hi Hne. rewrite forallb_forall in H.
  specialize (H i ltac:(apply in_seq; lia)).
  apply orb_true_iff in H as [H | H]; [| assumption].
  apply Nat.eqb_eq in H. contradiction.
Qed.

Lemma sum_below_opposite (n : nat) (f g : nat -> float) :
  (forall k, (k < n)%nat -> opposite (f k) (g k)) ->
  opposite (sum_below n f) (sum_below n g).
Proof.
  induction n as [| n IH]; intros H; [exact opposite_zero |].
  cbn [sum_below]. apply opposite_add; [apply IH | apply H]; auto with arith.
Qed.

(** ** Products with scalars, the unit and zero *)

Lemma scalar_mul_r (p s : MultiVector) (c : float) :
  scalar_like s c -> mv_finite p = true ->
  (forall j, (j < 8)%nat -> is_finite (component p j * c) = true) ->
  forall i, (i < 8)%nat ->
    stands_for (component (p * s)%mv i) (component p i * c).
Proof.
  intros [Hs0 Hs] Hp Hpc i Hi.
  pose proof (mv_finite_components p Hp) as Hf.
  rewrite product_component by assumption. unfold double_sum.
  assert (Hk1 : forall j k, (j < 8)%nat -> (k < 8)%nat -> k <> 0%nat ->
            zero_SF (component p j * component s k * metric j k i)).
  { intros j k Hj Hk Hk0.
    apply mul_zero_l; [| now apply metric_finite].
    apply mul_zero_r; [apply Hf | apply Hs; lia]. }
  apply sum_below_single with (i := i); [assumption | |].
  - intros j Hj Hji. apply pzero_zero, sum_below_zeros. intros k Hk.
    destruct (Nat.eq_dec k 0) as [-> | Hk0]; [| now apply Hk1].
    rewrite Hs0, metric_col0 by assumption.
    apply Nat.eqb_neq in Hji. rewrite Hji.
    apply mul_zero_r; [now apply Hpc | apply pzero_zero, pzero_0].
  - right. apply sum_below_single with (i := 0%nat); [lia | |].
    + intros k Hk Hk0. now apply Hk1.
    + left. rewrite Hs0, metric_col0, Nat.eqb_refl by assumption.
      split; [apply mul_one_r | now apply Hpc].
Qed.

Lemma scalar_mul_l (s m : MultiVector) (c : float) :
  scalar_like s c -> mv_finite m = true ->
  (forall j, (j < 8)%nat -> is_finite (component m j * c) = true) ->
  forall i, (i < 8)%nat ->
    stands_for (component (s * m)%mv i) (component m i * c).
Proof.
  intros [Hs0 Hs] Hm Hmc i Hi.
  pose proof (mv_finite_components m Hm) as Hf.
  rewrite product_component by assumption. unfold double_sum.
  apply sum_below_single with (i := 0%nat); [lia | |].
  - intros j Hj Hj0. apply pzero_zero, sum_below_zeros. intros k Hk.
    apply mul_zero_l; [| now apply metric_finite].
    apply mul_zero_l; [apply Hs; lia | apply Hf].
  - right. apply sum_below_single with (i := i); [assumption | |].
    + intros k Hk Hki. rewrite Hs0, (mul_comm c), metric_row0 by assumption.
      apply Nat.eqb_neq in Hki. rewrite Hki.
      apply mul_zero_r; [now apply Hmc | apply pzero_zero, pzero_0].
    + left. rewrite Hs0, (mul_comm c), metric_row0, Nat.eqb_refl by assumption.
      split; [apply mul_one_r | now apply Hmc].
Qed.

Lemma scale_ONE_scalar_like (c : float) :
  is_finite c = true -> scalar_like (scale ONE c) c.
Proof.
  intros Hc. rewrite scale_components. split.
  - cbn. apply mul_one_l.
  - intros j Hj. destruct j as [| j]; [lia |].
    do 7 (destruct j as [| j]; [now apply mul_zero_finite |]).
    unfold component. rewrite nth_overflow by (simpl; lia). now exists false.
Qed.

Lemma unit_mul_l (u m : MultiVector) :
  scalar_like u 1 -> mv_finite m = true -> mv_stands (u * m)%mv m.
Proof.
  intros Hu Hm i Hi. pose proof (mv_finite_components m Hm) as Hf.
  rewrite <- (mul_one_r (component m i)).
  apply scalar_mul_l; auto. intros j Hj. now rewrite mul_one_r.
Qed.

Lemma unit_mul_r (p u : MultiVector) :
  scalar_like u 1 -> mv_finite p = true -> mv_stands (p * u)%mv p.
Proof.
  intros Hu Hp i Hi. pose proof (mv_finite_components p Hp) as Hf.
  rewrite <- (mul_one_r (component p i)).
  apply scalar_mul_r; auto. intros j Hj. now rewrite mul_one_r.
Qed.

Lemma zero_mul_l (z m : MultiVector) (i : nat) :
  zero_like z -> mv_finite m = true -> (i < 8)%nat ->
  pzero_SF (component (z * m)%mv i).
Proof.
  intros Hz Hm Hi. pose proof (mv_finite_components m Hm) as Hf.
  rewrite product_component by assumption. unfold double_sum.
  apply sum_below_zeros. intros j Hj.
  apply pzero_zero, sum_below_zeros. intros k Hk.
  apply mul_zero_l; [| now apply metric_finite].
  apply mul_zero_l; [apply Hz | apply Hf].
Qed.

Lemma zero_mul_r (m z : MultiVector) (i : nat) :
  zero_like z -> mv_finite m = true -> (i < 8)%nat ->
  pzero_SF (component (m * z)%mv i).
Proof.
  intros Hz Hm Hi. pose proof (mv_finite_components m Hm) as Hf.
  rewrite product_component by assumption. unfold double_sum.
  apply sum_below_zeros. intros j Hj.
  apply pzero_zero, sum_below_zeros. intros k Hk.
  apply mul_zero_l; [| now apply metric_finite].
  apply mul_zero_r; [apply Hf | apply Hz].
Qed.

Lemma mv_stands_eqb (a m : MultiVector) : mv_stands a m -> mv_eqb a m = true.
Proof.
  intros H. rewrite mv_eqb_fields.
  rewrite (stands_for_eqb (real a) (real m) (H 0%nat ltac:(lia))),
    (stands_for_eqb (vecx a) (vecx m) (H 1%nat ltac:(lia))),
    (stands_for_eqb (vecy a) (vecy m) (H 2%nat ltac:(lia))),
    (stands_for_eqb (vecz a) (vecz m) (H 3%nat ltac:(lia))),
    (stands_for_eqb (axix a) (axix m) (H 4%nat ltac:(lia))),
    (stands_for_eqb (axiy a) (axiy m) (H 5%nat ltac:(lia))),
    (stands_for_eqb (axiz a) (axiz m) (H 6%nat ltac:(lia))),
    (stands_for_eqb (imag a) (imag m) (H 7%nat ltac:(lia))).
  reflexivity.
Qed.

Lemma mv_stands_finite (a m : MultiVector) : mv_stands a m -> mv_finite a = true.
Proof.
  intros H. rewrite mv_finite_fields.
  rewrite (stands_for_finite (real a) (real m) (H 0%nat ltac:(lia))),
    (stands_for_finite (vecx a) (vecx m) (H 1%nat ltac:(lia))),
    (stands_for_finite (vecy a) (vecy m) (H 2%nat ltac:(lia))),
    (stands_for_finite (vecz a) (vecz m) (H 3%nat ltac:(lia))),
    (stands_for_finite (axix a) (axix m) (H 4%nat ltac:(lia))),
    (stands_for_finite (axiy a) (axiy m) (H 5%nat ltac:(lia))),
    (stands_for_finite (axiz a) (axiz m) (H 6%nat ltac:(lia))),
    (stands_for_finite (imag a) (imag m) (H 7%nat ltac:(lia))).
  reflexivity.
Qed.

Lemma mv_stands_trans (a b c : MultiVector) :
  mv_stands a b -> mv_stands b c -> mv_stands a c.
Proof. intros Hab Hbc i Hi. eapply stands_for_trans; [apply Hab | apply Hbc]; assumption. Qed.

Lemma all_pzero_is_ZERO (p : MultiVector) :
  (forall i, (i < 8)%nat -> pzero_SF (component p i)) -> p = ZERO.
Proof.
  intros H. destruct p as [p0 p1 p2 p3 p4 p5 p6 p7]. unfold ZERO.
  f_equal;
    [ apply (pzero_eq _ (H 0%nat ltac:(lia))) | apply (pzero_eq _ (H 1%nat ltac:(lia)))
    | apply (pzero_eq _ (H 2%nat ltac:(lia))) | apply (pzero_eq _ (H 3%nat ltac:(lia)))
    | apply (pzero_eq _ (H 4%nat ltac:(lia))) | apply (pzero_eq _ (H 5%nat ltac:(lia)))
    | apply (pzero_eq _ (H 6%nat ltac:(lia))) | apply (pzero_eq _ (H 7%nat ltac:(lia))) ].
Qed.

Lemma ONE_scalar_like : scalar_like ONE 1.
Proof.
  split; [reflexivity |]. intros j Hj.
  do 8 (destruct j as [| j]; [first [lia | now exists false] |]).
  unfold component. rewrite nth_overflow by (simpl; lia). now exists false.
Qed.

Lemma ZERO_zero_like : zero_like ZERO.
Proof.
  intros j.
  do 8 (destruct j as [| j]; [now exists false |]).
  unfold component. rewrite nth_overflow by (simpl; lia). now exists false.
Qed.

(** [ONE] is a unit of the geometric product on finite multivectors: both
    [ONE * m] and [m * ONE] equal [m] component by component. *)
Theorem one_is_unit (m : MultiVector) :
  mv_finite m = true ->
  mv_eqb (ONE * m)%mv m = true /\ mv_eqb (m * ONE)%mv m = true.
Proof.
  intros Hm. split; apply mv_stands_eqb.
  - now apply unit_mul_l; [apply ONE_scalar_like |].
  - now apply unit_mul_r; [apply ONE_scalar_like |].
Qed.

Lemma one_is_unit_witness :
  mv_eqb (ONE * mkMV 1 (-2) 3 (-0) 5 6 7 0x1p-1074)%mv (mkMV 1 (-2) 3 (-0) 5 6 7 0x1p-1074)
  = true /\
  mv_eqb (mkMV 1 (-2) 3 (-0) 5 6 7 0x1p-1074 * ONE)%mv (mkMV 1 (-2) 3 (-0) 5 6 7 0x1p-1074)
  = true.
Proof.
  apply (one_is_unit (mkMV 1 (-2) 3 (-0) 5 6 7 0x1p-1074)). vm_compute. reflexivity.
Defined.

(** [ZERO] annihilates finite multivectors: [ZERO * m] and [m * ZERO] are
    [ZERO], bit for bit. *)
Theorem zero_annihilates (m : MultiVector) :
  mv_finite m = true ->
  (ZERO * m)%mv = ZERO /\ (m * ZERO)%mv = ZERO.
Proof.
  intros Hm. split; apply all_pzero_is_ZERO; intros i Hi.
  - now apply zero_mul_l; [apply ZERO_zero_like | |].
  - now apply zero_mul_r; [apply ZERO_zero_like | |].
Qed.

Lemma zero_annihilates_witness :
  (ZERO * mkMV 1 (-2) 3 (-0) 5 6 7 8)%mv = ZERO /\
  (mkMV 1 (-2) 3 (-0) 5 6 7 8 * ZERO)%mv = ZERO.
Proof. apply (zero_annihilates (mkMV 1 (-2) 3 (-0) 5 6 7 8)). vm_compute. reflexivity. Defined.

(** The two multiplications agree: when scaling [m] by [c] overflows in no
    component, the geometric product of [m] with the scalar multivector
    [ONE * c], on either side, equals [m * c] component by component. *)
Theorem scalar_product_is_scaling (m : MultiVector) (c : float) :
  mv_finite (scale m c) = true ->
  mv_eqb (m * scale ONE c)%mv (scale m c) = true /\
  mv_eqb (scale ONE c * m)%mv (scale m c) = true.
Proof.
  intros H.
  assert (Hmc : forall j, (j < 8)%nat -> is_finite (component m j * c) = true).
  { intros j Hj. pose proof (mv_finite_components _ H j) as Hj'.
    rewrite scale_components in Hj'.
    destruct m. do 8 (destruct j as [| j]; [exact Hj' |]). lia. }
  assert (Hm : mv_finite m = true).
  { rewrite mv_finite_fields.
    rewrite (proj1 (mul_finite_inv (real m) c (Hmc 0%nat ltac:(lia)))),
      (proj1 (mul_finite_inv (vecx m) c (Hmc 1%nat ltac:(lia)))),
      (proj1 (mul_finite_inv (vecy m) c (Hmc 2%nat ltac:(lia)))),
      (proj1 (mul_finite_inv (vecz m) c (Hmc 3%nat ltac:(lia)))),
      (proj1 (mul_finite_inv (axix m) c (Hmc 4%nat ltac:(lia)))),
      (proj1 (mul_finite_inv (axiy m) c (Hmc 5%nat ltac:(lia)))),
      (proj1 (mul_finite_inv (axiz m) c (Hmc 6%nat ltac:(lia)))),
      (proj1 (mul_finite_inv (imag m) c (Hmc 7%nat ltac:(lia)))).
    reflexivity. }
  pose proof (proj2 (mul_finite_inv _ _ (Hmc 0%nat ltac:(lia)))) as Hc.
  pose proof (scale_ONE_scalar_like c Hc) as Hs.
  assert (Hcomp : forall i, (i < 8)%nat ->
            component (scale m c) i = component m i * c).
  { intros i Hi. rewrite scale_components. destruct m.
    do 8 (destruct i as [| i]; [reflexivity |]). lia. }
  split; apply mv_stands_eqb; intros i Hi; rewrite Hcomp by assumption.
  - now apply scalar_mul_r.
  - now apply scalar_mul_l.
Qed.

Lemma scalar_product_is_scaling_witness :
  mv_eqb (mkMV 1 2 3 4 5 6 7 8 * scale ONE 3)%mv (scale (mkMV 1 2 3 4 5 6 7 8) 3) = true /\
  mv_eqb (scale ONE 3 * mkMV 1 2 3 4 5 6 7 8)%mv (scale (mkMV 1 2 3 4 5 6 7 8) 3) = true.
Proof.
  apply (scalar_product_is_scaling (mkMV 1 2 3 4 5 6 7 8) 3).
  vm_compute. reflexivity.
Defined.

(** ** Negation and the product *)

Lemma product_neg_l (a b : MultiVector) (i : nat) :
  (i < 8)%nat ->
  opposite (component (__neg__ a * b)%mv i) (component (a * b)%mv i).
Proof.
  intros Hi. rewrite !product_component by assumption. unfold double_sum.
  apply sum_below_opposite. intros j Hj.
  apply sum_below_opposite. intros k Hk.
  right. now rewrite neg_component, !mul_opp_l.
Qed.

Lemma product_neg_r (a b : MultiVector) (i : nat) :
  (i < 8)%nat ->
  opposite (component (a * __neg__ b)%mv i) (component (a * b)%mv i).
Proof.
  intros Hi. rewrite !product_component by assumption. unfold double_sum.
  apply sum_below_opposite. intros j Hj.
  apply sum_below_opposite. intros k Hk.
  right. now rewrite neg_component, mul_opp_r, mul_opp_l.
Qed.

Lemma opposite_mv_eqb (p q : MultiVector) :
  (forall i, (i < 8)%nat -> opposite (component p i) (component q i)) ->
  mv_eqb p (__neg__ q) = mv_no_nan q.
Proof.
  intros H. rewrite mv_eqb_fields, neg_components.
  cbn [real vecx vecy vecz axix axiy axiz imag].
  rewrite (opposite_eqb (real p) (real q) (H 0%nat ltac:(lia))),
    (opposite_eqb (vecx p) (vecx q) (H 1%nat ltac:(lia))),
    (opposite_eqb (vecy p) (vecy q) (H 2%nat ltac:(lia))),
    (opposite_eqb (vecz p) (vecz q) (H 3%nat ltac:(lia))),
    (opposite_eqb (axix p) (axix q) (H 4%nat ltac:(lia))),
    (opposite_eqb (axiy p) (axiy q) (H 5%nat ltac:(lia))),
    (opposite_eqb (axiz p) (axiz q) (H 6%nat ltac:(lia))),
    (opposite_eqb (imag p) (imag q) (H 7%nat ltac:(lia))).
  reflexivity.
Qed.
Lemma opposite_mul_r (u v y : float) : opposite u v -> opposite (u * y) (v * y).
Proof.
  intros [[[su Eu] [sv Ev]] | ->]; [| right; apply mul_opp_l].
  unfold opposite, zero_SF.
  destruct (Prim2SF y) as [sy | sy | | sy my ey] eqn:Ey.
  - left. rewrite !mul_spec, Eu, Ev, Ey. split; eexists; reflexivity.
  - right. apply Prim2SF_inj. now rewrite opp_spec, !mul_spec, Eu, Ev, Ey.
  - right. apply Prim2SF_inj. now rewrite opp_spec, !mul_spec, Eu, Ev, Ey.
  - left. rewrite !mul_spec, Eu, Ev, Ey. split; eexists; reflexivity.
Qed.

Lemma product_opposite_l (p q b : MultiVector) :
  (forall i, (i < 8)%nat -> opposite (component p i) (component q i)) ->
  forall i, (i < 8)%nat ->
    opposite (component (p * b)%mv i) (component (q * b)%mv i).
Proof.
  intros H i Hi. rewrite !product_component by assumption. unfold double_sum.
  apply sum_below_opposite. intros j Hj.
  apply sum_below_opposite. intros k Hk.
  now apply opposite_mul_r, opposite_mul_r, H.
Qed.

(** A negation factors out of the geometric product, on either side:
    [(-a) * b] and [a * (-b)] equal [-(a * b)] component by component,
    exactly when [a * b] has no NaN component; out of a scaling it factors
    so that in every component [(-a) * c] and [-(a * c)] are both NaN, or
    the same double. *)
Theorem neg_factors_out (a b : MultiVector) (c : float) :
  mv_eqb (__neg__ a * b)%mv (__neg__ (a * b)%mv) = mv_no_nan (a * b)%mv /\
  mv_eqb (a * __neg__ b)%mv (__neg__ (a * b)%mv) = mv_no_nan (a * b)%mv /\
  mv_same (scale (__neg__ a) c) (__neg__ (scale a c)).
Proof.
  repeat apply conj.
  - apply opposite_mv_eqb. intros i Hi. now apply product_neg_l.
  - apply opposite_mv_eqb. intros i Hi. now apply product_neg_r.
  - apply mv_same_eq. rewrite !scale_components, !neg_components.
    cbn [real vecx vecy vecz axix axiy axiz imag].
    now rewrite !mul_opp_l.
Qed.

(** ** Rotations *)

(** Rotating the negation gives the negation of the rotation: for any
    rotors, and so for any axis, angle, cosine and sine, the two are equal
    component by component exactly when the rotation has no NaN component;
    where [rotate] raises for the one, it raises alike for the other. *)
Theorem rotate_neg (cos sin : float -> float) (self axis l_rot r_rot : MultiVector)
    (theta : float) :
  mv_eqb (rotate3 (__neg__ self) l_rot r_rot) (__neg__ (rotate3 self l_rot r_rot))
  = mv_no_nan (rotate3 self l_rot r_rot) /\
  match rotate cos sin self axis theta with
  | Ret q =>
      exists p, rotate cos sin (__neg__ self) axis theta = Ret p /\
                mv_eqb p (__neg__ q) = mv_no_nan q
  | Raise e => rotate cos sin (__neg__ self) axis theta = Raise e
  end.
Proof.
  assert (H3 : forall l r,
             mv_eqb (rotate3 (__neg__ self) l r) (__neg__ (rotate3 self l r))
             = mv_no_nan (rotate3 self l r)).
  { intros l r. unfold rotate3. apply opposite_mv_eqb.
    apply product_opposite_l. intros i Hi. now apply product_neg_r. }
  split; [apply H3 |].
  unfold rotate, math_cos, math_sin, math_fn.
  destruct (is_infinity (theta / 2)); cbn [bind]; [reflexivity |].
  eexists. split; [reflexivity |]. unfold rotate2. apply H3.
Qed.

Lemma rotor2_scalar_like (axis : MultiVector) (s : float) :
  axi_finite axis = true -> zero_SF s -> scalar_like (rotor2 axis 1 s) 1.
Proof.
  intros Ha Hs. unfold axi_finite in Ha.
  apply andb_true_iff in Ha as [Ha H6]. apply andb_true_iff in Ha as [H4 H5].
  split; [reflexivity |]. intros j Hj.
  destruct j as [| j]; [lia |].
  do 3 (destruct j as [| j]; [now exists false |]).
  do 3 (destruct j as [| j]; [now apply mul_zero_r |]).
  destruct j as [| j]; [now exists false |].
  unfold component. rewrite nth_overflow by (simpl; lia). now exists false.
Qed.

(** The rotation identity: where the library's cosine of [0.0] is [1.0] and
    its sine of [0.0] is [0.0], rotating a finite multivector by the angle
    [0.0] about an axis with finite bivector components returns, and gives
    it back component by component. *)
Theorem rotate_by_zero (cos sin : float -> float) (self axis : MultiVector) :
  cos 0 = 1 -> sin 0 = 0 ->
  mv_finite self = true -> axi_finite axis = true ->
  exists m : MultiVector,
    rotate cos sin self axis 0 = Ret m /\ mv_eqb m self = true.
Proof.
  intros Hcos Hsin Hself Haxis.
  rewrite rotate_unfold by reflexivity.
  change (0 / 2) with 0. rewrite Hcos, Hsin.
  eexists. split; [reflexivity |].
  assert (HL : scalar_like (rotor2 axis 1 0) 1)
    by (apply rotor2_scalar_like; [assumption | now exists false]).
  assert (HR : scalar_like (rotor2 axis 1 (- 0)) 1)
    by (apply rotor2_scalar_like; [assumption | now exists true]).
  pose proof (unit_mul_l _ _ HL Hself) as H1.
  pose proof (unit_mul_r _ _ HR (mv_stands_finite _ _ H1)) as H2.
  apply mv_stands_eqb. eapply mv_stands_trans; eassumption.
Qed.

Lemma rotate_by_zero_witness :
  exists m : MultiVector,
    rotate cos_series sin_series (mkMV 1 2 3 4 5 6 7 8) (get_axis 3 4 12) 0 = Ret m /\
    mv_eqb m (mkMV 1 2 3 4 5 6 7 8) = true.
Proof.
  apply (rotate_by_zero cos_series sin_series); vm_compute; reflexivity.
Defined.

(** ** Overflow in the product *)

(** A product [a[j] * b[k]] that is not finite (an overflow, an infinity or
    a NaN) makes component [i] of [a * b] a NaN wherever the table has a
    zero at [(j, k, i)]. *)
Lemma product_nan (a b : MultiVector) (j k i : nat) :
  (j < 8)%nat -> (k < 8)%nat -> (i < 8)%nat ->
  is_finite (component a j * component b k) = false ->
  (metric j k i =? 0) = true ->
  is_nan (component (a * b)%mv i) = true.
Proof.
  intros Hj Hk Hi Hinf Hz. apply nan_is_nan.
  rewrite product_component by assumption. unfold double_sum.
  apply sum_below_nan with (i := j); [assumption |].
  apply sum_below_nan with (i := k); [assumption |].
  apply mul_not_finite_zero; [assumption | now apply eqb_zero_SF].
Qed.

Lemma getitem_ret (m : MultiVector) (i : Z) (x : float) :
  __getitem__ m i = Ret x -> exists n, (n < 8)%nat /\ component m n = x.
Proof.
  unfold __getitem__, array_getitem, seq_index. rewrite comp_length.
  change (Z.of_nat 8) with 8%Z.
  set (k := if (i <? 0)%Z then (i + 8)%Z else i).
  destruct (Z.leb_spec 0 k) as [H0 | H0]; [| discriminate].
  destruct (Z.ltb_spec k 8) as [H8 | H8]; [| discriminate].
  cbn [andb bind]. intros H. injection H as H.
  exists (Z.to_nat k). split; [lia | exact H].
Qed.

Lemma seven_nan (p : MultiVector) (i0 : nat) :
  (forall i, (i < 8)%nat -> i <> i0 -> is_nan (component p i) = true) ->
  (7 <= List.length (filter is_nan (comp p)))%nat.
Proof.
  intros H. destruct p as [p0 p1 p2 p3 p4 p5 p6 p7].
  assert (H0 : 0%nat <> i0 -> is_nan p0 = true) by (apply (H 0%nat); lia).
  assert (H1 : 1%nat <> i0 -> is_nan p1 = true) by (apply (H 1%nat); lia).
  assert (H2 : 2%nat <> i0 -> is_nan p2 = true) by (apply (H 2%nat); lia).
  assert (H3 : 3%nat <> i0 -> is_nan p3 = true) by (apply (H 3%nat); lia).
  assert (H4 : 4%nat <> i0 -> is_nan p4 = true) by (apply (H 4%nat); lia).
  assert (H5 : 5%nat <> i0 -> is_nan p5 = true) by (apply (H 5%nat); lia).
  assert (H6 : 6%nat <> i0 -> is_nan p6 = true) by (apply (H 6%nat); lia).
  assert (H7 : 7%nat <> i0 -> is_nan p7 = true) by (apply (H 7%nat); lia).
  clear H. cbn [comp real vecx vecy vecz axix axiy axiz imag filter].
  do 8 (destruct i0 as [| i0];
        [ try rewrite H0 by lia; try rewrite H1 by lia; try rewrite H2 by lia;
          try rewrite H3 by lia; try rewrite H4 by lia; try rewrite H5 by lia;
          try rewrite H6 by lia; try rewrite H7 by lia;
          match goal with |- context [is_nan ?c] => destruct (is_nan c) end;
          cbn [List.length]; lia |]).
  rewrite H0, H1, H2, H3, H4, H5, H6, H7 by lia. cbn [List.length]. lia.
Qed.

(** Overflow poisons a product: if for some subscripts [a[j] * b[k]] is not
    finite (an overflow, an infinity or a NaN), at least seven of the eight
    components of [a * b] are NaN. *)
Theorem overflow_poisons_product (a b : MultiVector) (j k : Z) (x y : float) :
  __getitem__ a j = Ret x -> __getitem__ b k = Ret y ->
  is_finite (x * y) = false ->
  (7 <= List.length (filter is_nan (comp (a * b)%mv)))%nat.
Proof.
  intros Ha Hb Hinf.
  destruct (getitem_ret a j x Ha) as [j' [Hj' <-]].
  destruct (getitem_ret b k y Hb) as [k' [Hk' <-]].
  destruct (metric_one_nonzero j' k' Hj' Hk') as [i0 [Hi0 Hz]].
  apply seven_nan with (i0 := i0).
  intros i Hi Hne. apply product_nan with (j := j') (k := k'); auto.
Qed.

Lemma overflow_poisons_product_witness :
  (7 <= List.length
          (filter is_nan
             (comp (get_vector 0x1p+600 0 0 * get_vector 0x1p+600 0 0)%mv)))%nat.
Proof.
  apply (overflow_poisons_product (get_vector 0x1p+600 0 0)
           (get_vector 0x1p+600 0 0) 1 (-7) 0x1p+600 0x1p+600);
    vm_compute; reflexivity.
Defined.

(** ** Subscripts, once more *)

Lemma seq_index_inside (i : Z) :
  (-8 <= i <= 7)%Z -> seq_index 8 i = Ret (Z.to_nat (i mod 8)).
Proof.
  intros Hi. unfold seq_index. change (Z.of_nat 8) with 8%Z.
  destruct (Z.ltb_spec i 0).
  - replace (i mod 8)%Z with (i + 8)%Z
      by (apply Z.mod_unique with (q := (-1)%Z); lia).
    index_cases.
  - rewrite Z.mod_small by lia. index_cases.
Qed.

(** A write through an in-range subscript is read back through the same
    subscript, leaves every other component as it was, and an out-of-range
    subscript raises [IndexError]. *)
Theorem setitem_getitem (m : MultiVector) (i : Z) (x : float) :
  ((-8 <= i <= 7)%Z ->
   exists m',
     __setitem__ m (PyInt i) x = Ret m' /\
     __getitem__ m' i = Ret x /\
     forall j, (-8 <= j <= 7)%Z -> (j mod 8 <> i mod 8)%Z ->
               __getitem__ m' j = __getitem__ m j) /\
  ((i < -8 \/ 7 < i)%Z -> __setitem__ m (PyInt i) x = Raise IndexError).
Proof.
  split; intros Hi.
  - exists (MultiVector_star (update (comp m) (Z.to_nat (i mod 8)) x)).
    pose proof (Z.mod_pos_bound i 8 ltac:(lia)) as Hb.
    assert (Hget : forall (p : MultiVector) (j : Z), (-8 <= j <= 7)%Z ->
              __getitem__ p j = Ret (component p (Z.to_nat (j mod 8)))).
    { intros p j Hj. unfold __getitem__, array_getitem. rewrite comp_length.
      now rewrite seq_index_inside. }
    repeat apply conj.
    + unfold __setitem__, array_setitem. rewrite comp_length.
      now rewrite seq_index_inside.
    + rewrite Hget, component_update by lia. now rewrite Nat.eqb_refl.
    + intros j Hj Hne.
      pose proof (Z.mod_pos_bound j 8 ltac:(lia)) as Hbj.
      rewrite !Hget, component_update by lia.
      destruct (Nat.eqb_spec (Z.to_nat (j mod 8)) (Z.to_nat (i mod 8))); [lia | reflexivity].
  - unfold __setitem__, array_setitem. rewrite comp_length.
    now rewrite seq_index_outside.
Qed.

Lemma setitem_getitem_witness :
  (exists m',
     __setitem__ VECX (PyInt 3) 5 = Ret m' /\
     __getitem__ m' 3 = Ret 5 /\
     forall j, (-8 <= j <= 7)%Z -> (j mod 8 <> 3 mod 8)%Z ->
               __getitem__ m' j = __getitem__ VECX j) /\
  __setitem__ VECX (PyInt 8) 5 = Raise IndexError.
Proof.
  split.
  - apply (proj1 (setitem_getitem VECX 3 5)). lia.
  - apply (proj2 (setitem_getitem VECX 8 5)). lia.
Defined.

(** ** Linear combinations, once more *)

Lemma axis_basis_combination (x y z : float) :
  linear_combination AXIS_BASIS [x; y; z]
  = PyMV (mkMV (0 + 0 * x + 0 * y + 0 * z)
               (0 + 0 * x + 0 * y + 0 * z)
               (0 + 0 * x + 0 * y + 0 * z)
               (0 + 0 * x + 0 * y + 0 * z)
               (0 + 1 * x + 0 * y + 0 * z)
               (0 + 0 * x + 1 * y + 0 * z)
               (0 + 0 * x + 0 * y + 1 * z)
               (0 + 0 * x + 0 * y + 0 * z)).
Proof. reflexivity. Qed.

(** [get_axis(x, y, z)] is the combination of the axis basis, as its
    docstring says, for finite [x], [y], [z] and up to [==]; with a
    coefficient that is not finite the two differ. *)
Theorem linear_combination_axis_basis (x y z : float) :
  (exists m : MultiVector,
     linear_combination AXIS_BASIS [x; y; z] = PyMV m /\
     mv_eqb m (get_axis x y z) = (is_finite x && is_finite y && is_finite z)%bool).
Proof.
  eexists. split; [apply axis_basis_combination |].
  rewrite mv_eqb_fields.
  cbn [get_axis real vecx vecy vecz axix axiy axiz imag].
  rewrite !mul_one_l.
  destruct (is_finite x) eqn:Hx, (is_finite y) eqn:Hy, (is_finite z) eqn:Hz;
    cbn [andb].
  1: { pose proof (mul_zero_finite x Hx) as Zx.
       pose proof (mul_zero_finite y Hy) as Zy.
       pose proof (mul_zero_finite z Hz) as Zz.
       assert (H1 : pzero_SF (0 + 0 * x))
         by (apply add_zero_zero; [apply pzero_0 | assumption]).
       assert (H2 : pzero_SF (0 + 0 * x + 0 * y)) by now apply add_zero_zero.
       assert (H3 : pzero_SF (0 + 0 * x + 0 * y + 0 * z)) by now apply add_zero_zero.
       rewrite (pzero_eqb _ H3).
       rewrite (stands_for_eqb (0 + x + 0 * y + 0 * z) x)
         by (do 2 (apply stands_for_add_zero; [| assumption]);
             apply add_zero_finite; [apply pzero_0 | assumption]).
       rewrite (stands_for_eqb (0 + 0 * x + y + 0 * z) y)
         by (apply stands_for_add_zero; [| assumption];
             apply add_zero_finite; assumption).
       rewrite (stands_for_eqb (0 + 0 * x + 0 * y + z) z)
         by (apply add_zero_finite; assumption).
       reflexivity. }
  all: assert (Hnan : Prim2SF (0 + 0 * x + 0 * y + 0 * z) = S754_nan)
      by (first
            [ apply add_nan_r; now apply mul_zero_not_finite
            | apply add_nan_l, add_nan_r; now apply mul_zero_not_finite
            | apply add_nan_l, add_nan_l, add_nan_r; now apply mul_zero_not_finite ]);
    now rewrite (nan_eqb _ 0 Hnan).
Qed.

Lemma scale_zero_finite (v : MultiVector) :
  mv_finite v = true -> __add__ ZERO (scale v 0) = ZERO.
Proof.
  intros Hv. rewrite mv_finite_fields in Hv.
  repeat (apply andb_true_iff in Hv as [? Hv]).
  rewrite add_components, scale_components.
  cbn [real vecx vecy vecz axix axiy axiz imag ZERO].
  unfold ZERO.
  f_equal; apply pzero_eq, add_zero_zero;
    first [apply pzero_0 | apply mul_zero_r; [assumption | apply pzero_zero, pzero_0]].
Qed.

(** With every coefficient [0.0], the combination of finite multivectors is
    [ZERO], bit for bit; in particular the empty combination is [ZERO]. *)
Theorem linear_combination_zero_coefficients (system : list MultiVector) :
  forallb mv_finite system = true ->
  linear_combination system (repeat 0 (List.length system)) = PyMV ZERO.
Proof.
  intros Hfin. unfold linear_combination.
  rewrite repeat_length, Nat.eqb_refl. f_equal.
  induction system as [| v vs IH]; [reflexivity |].
  cbn [forallb] in Hfin. apply andb_true_iff in Hfin as [Hv Hvs].
  cbn [List.length repeat combine map fold_left].
  rewrite scale_zero_finite by assumption. now apply IH.
Qed.

Lemma linear_combination_zero_coefficients_witness :
  linear_combination [get_vector 1 2 3; AXIX] (repeat 0 2) = PyMV ZERO.
Proof.
  apply (linear_combination_zero_coefficients [get_vector 1 2 3; AXIX]).
  vm_compute. reflexivity.
Defined.

(** ** The parts of a multivector *)

(** The four parts of a multivector are its components in order: rebuilding
    a multivector from its parts gives it back, and the constructors of
    vectors and axes are read back by [vec_part] and [axi_part] with every
    other part zero. *)
Theorem parts_round_trip (m : MultiVector) (x y z : float) :
  (let '(vx, vy, vz) := vec_part m in
   let '(ax, ay, az) := axi_part m in
   mkMV (scal_part m) vx vy vz ax ay az (imag_part m) = m) /\
  (scal_part (get_vector x y z), vec_part (get_vector x y z),
   axi_part (get_vector x y z), imag_part (get_vector x y z))
  = (0, (x, y, z), (0, 0, 0), 0) /\
  (scal_part (get_axis x y z), vec_part (get_axis x y z),
   axi_part (get_axis x y z), imag_part (get_axis x y z))
  = (0, (0, 0, 0), (x, y, z), 0).
Proof. destruct m. repeat apply conj; reflexivity. Qed.
